(** * Firebase emulator UI: the nested document editor and the
      rules-evaluation details view

    A shallow embedding of
    - [src/components/Firestore/DocumentEditor/index.tsx] and
    - [src/components/Firestore/Rules/EvaluationDetails.tsx].

    A React component is a function from its props (and the hook values
    it reads) to the elements it returns; an element of one of the
    repository's own components is kept as that component's props, and
    rendering the tree is the recursion that calls the component on them.
    A JSX child [{c && <X/>}] contributes the list [[X]] when [c] holds and
    the empty list otherwise.  JavaScript's [undefined] is [None]. *)

From Stdlib Require Import DecimalNat DecimalString Floats.PrimFloat.
From stdpp Require Import base option list strings countable gmap.

Open Scope string_scope.
Open Scope list_scope.

(** ** Field values (models.ts) *)

Set Warnings "-register-all".

Module Model.

(** JavaScript numbers are IEEE 754 doubles. *)
Definition number := PrimFloat.float.

Record GeoPoint := { latitude : number; longitude : number }.
Record Timestamp := { seconds : Z; nanoseconds : Z }.
Record DocumentReference := { referencePath : string }.

(** Modelled from the spec: the type [FirestoreAny] of models.ts, which is
    not part of the sources.  The spec calls a field value a tagged value;
    the tags are the nine members of [FIRESTORE_FIELD_TYPES].  A map lists
    its entries in the order in which [Object.keys] enumerates them. *)
Inductive FirestoreAny :=
| FString (s : string)
| FNumber (n : number)
| FBoolean (b : bool)
| FNull
| FGeoPoint (g : GeoPoint)
| FTimestamp (t : Timestamp)
| FReference (r : DocumentReference)
| FMap (fields : list (string * FirestoreAny))
| FArray (elems : list FirestoreAny).

Definition FirestoreMap := list (string * FirestoreAny).

(** What a hook or a lookup hands to a component: a field value, or
    [undefined]. *)
Definition FieldState := option FirestoreAny.

(** The members of the enum [FieldType] that the editor names, and any
    further member the enum may have (its declaration is in models.ts). *)
Inductive FieldType :=
| STRING | NUMBER | BOOLEAN | MAP | ARRAY | NULL
| TIMESTAMP | GEOPOINT | REFERENCE
| OtherFieldType (name : string).

Definition FieldType_code (t : FieldType) : nat + string :=
  match t with
  | STRING => inl 0 | NUMBER => inl 1 | BOOLEAN => inl 2
  | MAP => inl 3 | ARRAY => inl 4 | NULL => inl 5
  | TIMESTAMP => inl 6 | GEOPOINT => inl 7 | REFERENCE => inl 8
  | OtherFieldType name => inr name
  end.

Definition FieldType_decode (c : nat + string) : FieldType :=
  match c with
  | inl 0 => STRING | inl 1 => NUMBER | inl 2 => BOOLEAN
  | inl 3 => MAP | inl 4 => ARRAY | inl 5 => NULL
  | inl 6 => TIMESTAMP | inl 7 => GEOPOINT | inl _ => REFERENCE
  | inr name => OtherFieldType name
  end.

#[global] Instance FieldType_eq_dec : EqDecision FieldType.
Proof. solve_decision. Defined.

#[global] Instance FieldType_countable : Countable FieldType.
Proof.
  refine (inj_countable' FieldType_code FieldType_decode _).
  intros t. destruct t; reflexivity.
Defined.

(** Number of constructors of a value: the measure of the traversal. *)
Fixpoint size (v : FirestoreAny) : nat :=
  match v with
  | FMap fields =>
      S ((fix entries (l : list (string * FirestoreAny)) : nat :=
            match l with
            | [] => 0
            | (_, c) :: l' => size c + entries l'
            end) fields)
  | FArray elems =>
      S ((fix items (l : list FirestoreAny) : nat :=
            match l with
            | [] => 0
            | c :: l' => size c + items l'
            end) elems)
  | _ => 1
  end.

(** Nesting depth of a value: 0 for a primitive. *)
Fixpoint depth (v : FirestoreAny) : nat :=
  match v with
  | FMap fields =>
      S ((fix entries (l : list (string * FirestoreAny)) : nat :=
            match l with
            | [] => 0
            | (_, c) :: l' => Nat.max (depth c) (entries l')
            end) fields)
  | FArray elems =>
      S ((fix items (l : list FirestoreAny) : nat :=
            match l with
            | [] => 0
            | c :: l' => Nat.max (depth c) (items l')
            end) elems)
  | _ => 0
  end.

Definition stateSize (s : FieldState) : nat := from_option size 0 s.
Definition stateDepth (s : FieldState) : nat := from_option depth 0 s.

End Model.

(** ** Helpers of utils.ts *)

Module Utils.
Import Model.

(** The string literal [''] of the sources. *)
Definition emptyString : string := EmptyString.

(** Modelled from the spec: the type guards of utils.ts, which is not part
    of the sources.  A guard tests the tag of the value, and no guard holds
    of [undefined]. *)
Definition isString (v : FieldState) : bool :=
  match v with Some (FString _) => true | _ => false end.
Definition isNumber (v : FieldState) : bool :=
  match v with Some (FNumber _) => true | _ => false end.
Definition isBoolean (v : FieldState) : bool :=
  match v with Some (FBoolean _) => true | _ => false end.
Definition isGeoPoint (v : FieldState) : bool :=
  match v with Some (FGeoPoint _) => true | _ => false end.
Definition isTimestamp (v : FieldState) : bool :=
  match v with Some (FTimestamp _) => true | _ => false end.
Definition isReference (v : FieldState) : bool :=
  match v with Some (FReference _) => true | _ => false end.
Definition isMap (v : FieldState) : bool :=
  match v with Some (FMap _) => true | _ => false end.
Definition isArray (v : FieldState) : bool :=
  match v with Some (FArray _) => true | _ => false end.

(** Modelled from the spec: [isPrimitive] of utils.ts; a primitive is a
    value that is neither a map nor an array. *)
Definition isPrimitive (v : FieldState) : bool :=
  negb (isMap v) && negb (isArray v).

(** The two helpers of utils.ts that the editor only passes on: what they
    compute is left open. *)
Class Helpers := {
  getFieldType : FieldState -> FieldType;
  lastFieldName : list string -> string
}.

(** Modelled from the spec: one reading of the two helpers, used to run the
    editor on concrete documents. *)
Definition tagFieldType (v : FieldState) : FieldType :=
  match v with
  | Some (FString _) => STRING
  | Some (FNumber _) => NUMBER
  | Some (FBoolean _) => BOOLEAN
  | Some FNull => NULL
  | Some (FGeoPoint _) => GEOPOINT
  | Some (FTimestamp _) => TIMESTAMP
  | Some (FReference _) => REFERENCE
  | Some (FMap _) => MAP
  | Some (FArray _) => ARRAY
  | None => OtherFieldType "undefined"
  end.

Definition tagHelpers : Helpers :=
  {| getFieldType := tagFieldType; lastFieldName := fun p => List.last p emptyString |}.

(** A template literal [`${n}`] of a non-negative integer. *)
Definition toString (n : nat) : string :=
  NilEmpty.string_of_uint (Nat.to_uint n).

(** [Object.keys] of a map. *)
Definition Object_keys (fields : FirestoreMap) : list string := fst <$> fields.

End Utils.

(** ** The document store (DocumentEditor/store.tsx, actions.ts) *)

Module Store.
Import Model Utils.

(** Modelled from the spec: the actions of actions.ts, which is not part
    of the sources; an action is the creator that made it with the payload
    it was given. *)
Inductive Action :=
| addField (path : list string) (value : FirestoreAny)
| updateField (path : list string) (value : FirestoreAny)
| deleteField (path : list string)
| updateKey (path : list string) (key : string)
| updateType (path : list string) (type : FieldType).

(** The property [k] of a map, the first entry of that name. *)
Fixpoint mapGet (fields : FirestoreMap) (k : string) : FieldState :=
  match fields with
  | [] => None
  | (k', v) :: rest => if decide (k' = k) then Some v else mapGet rest k
  end.

(** The property [k] of an array: an element, when [k] is the decimal
    numeral of its index. *)
Definition arrayGet (elems : list FirestoreAny) (k : string) : FieldState :=
  d ← NilEmpty.uint_of_string k;
  let i := Nat.of_uint d in
  if decide (toString i = k) then elems !! i else None.

Definition getProperty (v : FirestoreAny) (k : string) : FieldState :=
  match v with
  | FMap fields => mapGet fields k
  | FArray elems => arrayGet elems k
  | _ => None
  end.

Fixpoint getIn (v : FirestoreAny) (path : list string) : FieldState :=
  match path with
  | [] => Some v
  | k :: rest => c ← getProperty v k; getIn c rest
  end.

(** Modelled from the spec: [useFieldState] of store.tsx, which is not part
    of the sources: the field found by following [path] from the root of
    the document held by the provider, [undefined] when there is none. *)
Definition useFieldState (doc : FirestoreMap) (path : list string) : FieldState :=
  getIn (FMap doc) path.

End Store.

(** ** DocumentEditor/index.tsx *)

Module DocumentEditor.
Import Model Utils Store.

Definition FIRESTORE_FIELD_TYPES : list FieldType :=
  [STRING; NUMBER; BOOLEAN; MAP; ARRAY; NULL; TIMESTAMP; GEOPOINT; REFERENCE].

Definition RTDB_FIELD_TYPES : list FieldType :=
  [STRING; NUMBER; BOOLEAN; MAP; ARRAY].

Definition supportedFieldTypeSet : gset FieldType :=
  list_to_set FIRESTORE_FIELD_TYPES.

Definition supportsEditing `{Helpers} (value : FirestoreAny) : bool :=
  bool_decide (getFieldType (Some value) ∈ supportedFieldTypeSet).

(** *** Elements *)

(** The props of a [<NestedEditor/>] element; [isRtdb] is optional. *)
Record NestedEditorProps := {
  path : list string;
  isKeyMutable : bool;
  isRtdb : option bool
}.

(** The six leaf editors, each with its [value] and [onChange] props. *)
Inductive LeafEditor :=
| StringEditor (value : FieldState) (onChange : FirestoreAny -> Action)
| NumberEditor (value : FieldState) (onChange : FirestoreAny -> Action)
| BooleanEditor (value : FieldState) (onChange : FirestoreAny -> Action)
| GeoPointEditor (value : FieldState) (onChange : FirestoreAny -> Action)
| TimestampEditor (value : FieldState) (onChange : FirestoreAny -> Action)
| ReferenceEditor (value : FieldState) (onChange : FirestoreAny -> Action).

(** The key text field.  [onChange] gives the next local key (the argument
    of [setKey]) and [onBlur] the action dispatched; both are absent when
    the field is read-only. *)
Record TextFieldProps := {
  readOnly : bool;
  disabled : bool;
  keyOnChange : option (string -> string);
  keyOnBlur : option Action;
  keyValue : string;
  keyLabel : string
}.

(** The widgets of the component library, with the props that vary (the
    constant [outlined] and [type="button"] are left out).  An event
    handler that dispatches is the action it dispatches. *)
Inductive Widget :=
| TextField (props : TextFieldProps)
| Select (label : string) (options : list FieldType) (value : FieldType)
    (onChange : FieldType -> Action)
| Leaf (editor : LeafEditor)
| IconButton (icon label : string) (onClick : Action).

(** What one [NestedEditor] returns: the flex row, and the child elements
    ([null] when the field is neither a map nor an array). *)
Record NestedEditorElements := {
  row : list Widget;
  childEditors : option (list NestedEditorProps)
}.

(** [{c && <X/>}] *)
Definition when {A} (c : bool) (x : A) : list A := if c then [x] else [].

(** An optional boolean prop used as a condition. *)
Definition truthy (b : option bool) : bool := default false b.

(** *** NestedEditor *)

Section NestedEditor.
Context `{Helpers}.

(** Lines 168 to 181. *)
Definition renderChildEditors (path : list string) (state : FieldState)
  : option (list NestedEditorProps) :=
  match state with
  | Some (FMap fields) =>
      Some ((fun childLeaf =>
               {| path := path ++ [childLeaf]; isKeyMutable := true;
                  isRtdb := None |}) <$> Object_keys fields)
  | Some (FArray elems) =>
      Some (imap (fun index _ =>
                    {| path := path ++ [toString index]; isKeyMutable := false;
                       isRtdb := None |}) elems)
  | _ => None
  end.

Definition handleEditValue (path : list string) (value : FirestoreAny) : Action :=
  updateField path value.

(** Lines 187 to 208. *)
Definition fieldEditor (path : list string) (state : FieldState) : list LeafEditor :=
  when (isString state) (StringEditor state (handleEditValue path))
  ++ when (isNumber state) (NumberEditor state (handleEditValue path))
  ++ when (isBoolean state) (BooleanEditor state (handleEditValue path))
  ++ when (isGeoPoint state) (GeoPointEditor state (handleEditValue path))
  ++ when (isTimestamp state) (TimestampEditor state (handleEditValue path))
  ++ when (isReference state) (ReferenceEditor state (handleEditValue path)).

Definition handleKeyChange (value : string) : string := value.

Definition handleKeyBlur (path : list string) (key : string) : Action :=
  updateKey path key.

Definition keyField (props : NestedEditorProps) (key : string) : TextFieldProps :=
  if isKeyMutable props
  then {| readOnly := false; disabled := false;
          keyOnChange := Some handleKeyChange;
          keyOnBlur := Some (handleKeyBlur (path props) key);
          keyValue := key; keyLabel := "Field" |}
  else {| readOnly := true; disabled := true;
          keyOnChange := None; keyOnBlur := None;
          keyValue := key; keyLabel := "Field" |}.

(** Lines 220 to 275: the children of the flex row, in order. *)
Definition renderRow (props : NestedEditorProps) (state : FieldState) (key : string)
  : list Widget :=
  [ TextField (keyField props key);
    Select "Type"
      (if truthy (isRtdb props) then RTDB_FIELD_TYPES else FIRESTORE_FIELD_TYPES)
      (getFieldType state)
      (fun type => updateType (path props) type) ]
  ++ (Leaf <$> fieldEditor (path props) state)
  ++ when (isMap state)
       (IconButton "add" "Add field" (addField (path props ++ [emptyString]) (FString emptyString)))
  ++ when (isArray state)
       (IconButton "add" "Add field"
          (addField (path props ++ [toString (length (path props))]) (FString emptyString)))
  ++ when (bool_decide (1 < length (path props)) && isPrimitive state)
       (IconButton "delete" "Remove field" (deleteField (path props))).

(** The component body, given the two values its hooks return: the field
    state and the local key. *)
Definition NestedEditorBody (props : NestedEditorProps) (state : FieldState)
  (key : string) : NestedEditorElements :=
  {| row := renderRow props state key;
     childEditors := renderChildEditors (path props) state |}.

(** A first render: [useFieldState(path)] reads the document, and the local
    key starts as [lastFieldName(path)]. *)
Definition NestedEditor (doc : FirestoreMap) (props : NestedEditorProps)
  : NestedEditorElements :=
  NestedEditorBody props (useFieldState doc (path props))
    (lastFieldName (path props)).

(** *** Rendering the tree *)

(** A rendered [NestedEditor]: its row, and its rendered children. *)
Inductive Rendered :=
| RNestedEditor (props : NestedEditorProps) (row : list Widget)
    (children : option (list Rendered)).

(** React calls the component on each child element it returned; [fuel]
    bounds the nesting of these calls. *)
Fixpoint render (fuel : nat) (doc : FirestoreMap) (props : NestedEditorProps)
  : option Rendered :=
  match fuel with
  | 0 => None
  | S fuel' =>
      let elements := NestedEditor doc props in
      children ← match childEditors elements with
                 | None => Some None
                 | Some cs => Some <$> mapM (render fuel' doc) cs
                 end;
      Some (RNestedEditor props (row elements) children)
  end.

(** *** Reading a rendered row *)

(** The six guards that select a leaf editor, in the order of lines 189 to
    206. *)
Definition leafGuards : list (FieldState -> bool) :=
  [isString; isNumber; isBoolean; isGeoPoint; isTimestamp; isReference].

(** The guards that hold of a state. *)
Definition guardsHolding (state : FieldState) : list bool :=
  filter (fun b => b = true) ((fun guard => guard state) <$> leafGuards).

(** The leaf editors of a row. *)
Definition leafEditors (row : list Widget) : list LeafEditor :=
  omap (fun w => match w with Leaf e => Some e | _ => None end) row.

(** What a click on each icon button [icon] of a row dispatches. *)
Definition clicks (icon : string) (row : list Widget) : list Action :=
  omap (fun w => match w with
                 | IconButton i _ onClick =>
                     if decide (i = icon) then Some onClick else None
                 | _ => None
                 end) row.

(** The options offered by the type selectors of a row. *)
Definition selectOptions (row : list Widget) : list (list FieldType) :=
  omap (fun w => match w with
                 | Select _ options _ _ => Some options
                 | _ => None
                 end) row.

Definition renderedProps (r : Rendered) : NestedEditorProps :=
  match r with RNestedEditor props _ _ => props end.

Definition renderedChildren (r : Rendered) : option (list Rendered) :=
  match r with RNestedEditor _ _ children => children end.

(** [child] is an entry of the map [parent], or an element of the array
    [parent]. *)
Definition immediateSubtree (child parent : FirestoreAny) : Prop :=
  match parent with
  | FMap fields => exists k, (k, child) ∈ fields
  | FArray elems => child ∈ elems
  | _ => False
  end.

(** *** RootField and DocumentEditor *)

(** [rootOnChange] is the argument with which the effect of lines 121 to
    123 calls the [onChange] prop, when that prop is given. *)
Record RootFieldElements := {
  rootOnChange : list FirestoreMap;
  rootFields : list (NestedEditorProps * list Widget);
  rootAdd : list Widget
}.

(** Lines 117 to 153. *)
Definition RootField (state : FirestoreMap) (hasOnChange : bool)
  (areRootKeysMutable areRootFieldsMutable : bool) (isRtdb : option bool)
  : RootFieldElements :=
  {| rootOnChange := when hasOnChange state;
     rootFields :=
       (fun field =>
          ({| path := [field]; isKeyMutable := areRootKeysMutable;
              isRtdb := isRtdb |},
           when areRootFieldsMutable
             (IconButton "delete" "Remove field" (deleteField [field]))))
       <$> Object_keys state;
     rootAdd :=
       when areRootFieldsMutable
         (IconButton "add" "Add field" (addField [emptyString] (FString emptyString))) |}.

(** [DocumentEditor]: the two mutability props default to [true]. *)
Definition DocumentEditor (value : FirestoreMap) (hasOnChange : bool)
  (areRootKeysMutable areRootFieldsMutable rtdb : option bool)
  : RootFieldElements :=
  RootField value hasOnChange (default true areRootKeysMutable)
    (default true areRootFieldsMutable) rtdb.

(** The whole editor, rendered. *)
Definition renderDocument (fuel : nat) (value : FirestoreMap)
  (areRootKeysMutable areRootFieldsMutable rtdb : option bool)
  : option (list (Rendered * list Widget) * list Widget) :=
  let root :=
    DocumentEditor value false areRootKeysMutable areRootFieldsMutable rtdb in
  fields ← mapM (fun '(props, buttons) =>
                   r ← render fuel value props; Some (r, buttons))
                (rootFields root);
  Some (fields, rootAdd root).

End NestedEditor.

(** A document used in the examples: a map holding a string, an array and
    a null. *)
Definition sampleDocument : FirestoreMap :=
  [ ("name", FString "Ada");
    ("tags", FArray [FString "x"; FNumber 2%float; FMap [("deep", FNull)]]);
    ("none", FNull) ].

End DocumentEditor.

(** ** Rules/EvaluationDetails.tsx *)

Module Rules.
Import Utils.

(** What the view imports from modules that are not part of the sources:
    the evaluation model (rules_evaluation_result_model.ts, types.ts), the
    hook of utils.ts, the rules text of sample-rules.ts, and the
    application store with its action creator and its selector. *)
Class Externals := {
  Line : Type;
  Outcome : Type;
  GranularAllowOutcome : Type;
  granularLine : GranularAllowOutcome -> Line;
  granularOutcome : GranularAllowOutcome -> Outcome;
  FirestoreRulesEvaluation : Type;
  granularAllowOutcomes :
    FirestoreRulesEvaluation -> option (list GranularAllowOutcome);
  HeaderDatum : Type;
  useEvaluationCleanMainData :
    option FirestoreRulesEvaluation ->
    HeaderDatum * HeaderDatum * HeaderDatum * HeaderDatum * HeaderDatum;
  sampleRules : string;
  AppState : Type;
  AppAction : Type;
  reducer : AppState -> AppAction -> AppState;
  getRequestEvaluationById : option string -> AppAction;
  getSelectedRequestEvaluation : AppState -> option FirestoreRulesEvaluation
}.

(** Modelled from the spec: [createStructuredSelector] of the store module,
    which is not part of the sources: the selector that applies each named
    selector to the state and returns the results under the same names. *)
Definition createStructuredSelector {S V : Type}
  (selectors : list (string * (S -> V))) (state : S) : list (string * V) :=
  (fun '(name, selector) => (name, selector state)) <$> selectors.

(** A property of an object, [undefined] when the object has none of that
    name. *)
Fixpoint property {V : Type} (name : string) (object : list (string * V))
  : option V :=
  match object with
  | [] => None
  | (name', v) :: rest =>
      if decide (name' = name) then Some v else property name rest
  end.

Section View.
Context `{Externals}.

(** *** The store and its effects *)

(** The application store, and the actions dispatched to it so far. *)
Record World := {
  appState : AppState;
  dispatched : list AppAction
}.

(** A computation that may dispatch. *)
Definition Eff (A : Type) : Type := World -> A * World.

Definition ret {A} (a : A) : Eff A := fun w => (a, w).

Definition bind {A B} (m : Eff A) (k : A -> Eff B) : Eff B :=
  fun w => let '(a, w') := m w in k a w'.

(** The store's [dispatch]: the action goes through the reducer, and is
    returned. *)
Definition dispatch (action : AppAction) : Eff AppAction :=
  fun w => (action,
            {| appState := reducer (appState w) action;
               dispatched := dispatched w ++ [action] |}).

(** *** Props and elements *)

Record PropsFromState := {
  selectedEvaluation : option FirestoreRulesEvaluation
}.

Record PropsFromDispatch := {
  getEvaluationById : option string -> Eff AppAction
}.

Definition Props : Type := PropsFromState * PropsFromDispatch.

(** The route parameters read by [useParams]. *)
Record RouteParams := { evaluationId : string }.

Record LineOutcome := { line : Line; outcome : Outcome }.

Record EvaluationDetailsHeaderProps := {
  requestTimeComplete : HeaderDatum;
  requestTimeFromNow : HeaderDatum;
  requestMethod : HeaderDatum;
  resourceSubPaths : HeaderDatum;
  outcomeData : HeaderDatum
}.

Record EvaluationDetailsCodeProps := {
  linesOutcome : option (list LineOutcome);
  firestoreRules : string
}.

(** The dependency array of the effect. *)
Record EffectDeps := {
  depGetEvaluationById : option string -> Eff AppAction;
  depEvaluationId : string;
  depSelectedEvaluation : option FirestoreRulesEvaluation
}.

(** What a render returns: the two child elements, and the effect handed
    to [useEffect] with its dependencies. *)
Record View := {
  header : EvaluationDetailsHeaderProps;
  code : EvaluationDetailsCodeProps;
  effect : Eff unit;
  effectDeps : EffectDeps
}.

(** *** The component *)

(** Lines 55 to 60: each [?.] yields [undefined] when what is before it is
    [undefined]. *)
Definition computeLinesOutcome (selected : option FirestoreRulesEvaluation)
  : option (list LineOutcome) :=
  match selected with
  | None => None
  | Some evaluation =>
      match granularAllowOutcomes evaluation with
      | None => None
      | Some outcomes =>
          Some (List.map
                  (fun granularAllowOutcome =>
                     {| line := granularLine granularAllowOutcome;
                        outcome := granularOutcome granularAllowOutcome |})
                  outcomes)
      end
  end.

(** Lines 43 to 83. *)
Definition EvaluationDetails (props : Props) (params : RouteParams) : View :=
  let selectedEvaluation := selectedEvaluation props.1 in
  let getEvaluationById := getEvaluationById props.2 in
  let evaluationId := evaluationId params in
  let '(requestTimeComplete, requestTimeFromNow, requestMethod,
        resourceSubPaths, outcomeData) :=
    useEvaluationCleanMainData selectedEvaluation in
  let linesOutcome := computeLinesOutcome selectedEvaluation in
  {| header :=
       {| requestTimeComplete := requestTimeComplete;
          requestTimeFromNow := requestTimeFromNow;
          requestMethod := requestMethod;
          resourceSubPaths := resourceSubPaths;
          outcomeData := outcomeData |};
     code := {| linesOutcome := linesOutcome; firestoreRules := sampleRules |};
     effect := bind (getEvaluationById (Some evaluationId)) (fun _ => ret tt);
     effectDeps :=
       {| depGetEvaluationById := getEvaluationById;
          depEvaluationId := evaluationId;
          depSelectedEvaluation := selectedEvaluation |} |}.

(** Lines 85 to 87. *)
Definition mapStateToProps
  : AppState -> list (string * option FirestoreRulesEvaluation) :=
  createStructuredSelector [("selectedEvaluation", getSelectedRequestEvaluation)].

(** Lines 88 to 94. *)
Definition mapDispatchToProps (dispatch : AppAction -> Eff AppAction)
  : PropsFromDispatch :=
  {| getEvaluationById :=
       fun selectedEvaluationId =>
         dispatch (getRequestEvaluationById selectedEvaluationId) |}.

(** Line 96, [connect(mapStateToProps, mapDispatchToProps)]: the props that
    the connected component hands to [EvaluationDetails].  A prop missing
    from the object returned by [mapStateToProps] is [undefined]. *)
Definition connectedProps (state : AppState) : Props :=
  ({| selectedEvaluation :=
        mjoin (property "selectedEvaluation" (mapStateToProps state)) |},
   mapDispatchToProps dispatch).

Definition ConnectedEvaluationDetails (state : AppState) (params : RouteParams)
  : View :=
  EvaluationDetails (connectedProps state) params.

End View.

(** *** A store to run the view on *)

(** Modelled from the spec: evaluations as an external service supplies
    them, one outcome per line of the rules, and a store that keeps them
    together with the id of the evaluation asked for. *)
Record SampleOutcome := {
  sampleLine : nat;
  sampleOutcome : string;
  sampleDetail : string
}.

Record SampleEvaluation := {
  sampleId : string;
  sampleOutcomes : option (list SampleOutcome)
}.

Record SampleState := {
  sampleEvaluations : list SampleEvaluation;
  sampleSelectedId : option string
}.

Definition sampleReducer (s : SampleState) (a : option string) : SampleState :=
  {| sampleEvaluations := sampleEvaluations s; sampleSelectedId := a |}.

Definition sampleSelector (s : SampleState) : option SampleEvaluation :=
  id ← sampleSelectedId s;
  List.find (fun e => bool_decide (sampleId e = id)) (sampleEvaluations s).

Definition sampleExternals : Externals :=
  {| Line := nat;
     Outcome := string;
     GranularAllowOutcome := SampleOutcome;
     granularLine := sampleLine;
     granularOutcome := sampleOutcome;
     FirestoreRulesEvaluation := SampleEvaluation;
     granularAllowOutcomes := sampleOutcomes;
     HeaderDatum := string;
     useEvaluationCleanMainData :=
       fun e => (from_option sampleId emptyString e, "-", "GET", "/", "-");
     sampleRules := "service cloud.firestore { }";
     AppState := SampleState;
     AppAction := option string;
     reducer := sampleReducer;
     getRequestEvaluationById := fun id => id;
     getSelectedRequestEvaluation := sampleSelector |}.

Definition sampleState : SampleState :=
  {| sampleEvaluations :=
       [ {| sampleId := "e1";
            sampleOutcomes :=
              Some [ {| sampleLine := 3; sampleOutcome := "allow";
                        sampleDetail := "read" |};
                     {| sampleLine := 7; sampleOutcome := "deny";
                        sampleDetail := "write" |} ] |};
         {| sampleId := "e2"; sampleOutcomes := None |} ];
     sampleSelectedId := Some "e1" |}.

End Rules.

(** ** Reading a rendered tree *)

Module Inspect.
Import Model Utils Store DocumentEditor.

(** The path in the payload of an action. *)
Definition actionPath (a : Action) : list string :=
  match a with
  | addField path _ => path
  | updateField path _ => path
  | deleteField path => path
  | updateKey path _ => path
  | updateType path _ => path
  end.

Definition leafOnChange (e : LeafEditor) : FirestoreAny -> Action :=
  match e with
  | StringEditor _ onChange => onChange
  | NumberEditor _ onChange => onChange
  | BooleanEditor _ onChange => onChange
  | GeoPointEditor _ onChange => onChange
  | TimestampEditor _ onChange => onChange
  | ReferenceEditor _ onChange => onChange
  end.

(** What the handlers of a widget dispatch, when a leaf editor reports
    [value] and the type selector reports [type]: the key field dispatches
    on blur, a button on click. *)
Definition widgetActions (value : FirestoreAny) (type : FieldType) (w : Widget)
  : list Action :=
  match w with
  | TextField props => option_list (keyOnBlur props)
  | Select _ _ _ onChange => [onChange type]
  | Leaf editor => [leafOnChange editor value]
  | IconButton _ _ onClick => [onClick]
  end.

Definition rowActions (value : FirestoreAny) (type : FieldType)
  (row : list Widget) : list Action :=
  row ≫= widgetActions value type.

(** The key fields of a row. *)
Definition keyFields (row : list Widget) : list TextFieldProps :=
  omap (fun w => match w with TextField props => Some props | _ => None end) row.

Definition renderedRow (r : Rendered) : list Widget :=
  match r with RNestedEditor _ row _ => row end.

(** The editors of a rendered tree: the root first, then those of each
    child in order. *)
Fixpoint nodes (r : Rendered) : list Rendered :=
  match r with
  | RNestedEditor _ _ children =>
      r :: match children with
           | None => []
           | Some rs =>
               (fix each (l : list Rendered) : list Rendered :=
                  match l with
                  | [] => []
                  | c :: l' => nodes c ++ each l'
                  end) rs
           end
  end.

(** The editors below the root. *)
Definition descendants (r : Rendered) : list Rendered :=
  default [] (renderedChildren r) ≫= nodes.

(** No map of the value lists a key twice, as in every JavaScript
    object. *)
Fixpoint distinctKeys (v : FirestoreAny) : Prop :=
  match v with
  | FMap fields =>
      NoDup (Object_keys fields)
      /\ (fix entries (l : list (string * FirestoreAny)) : Prop :=
            match l with
            | [] => True
            | (_, c) :: l' => distinctKeys c /\ entries l'
            end) fields
  | FArray elems =>
      (fix items (l : list FirestoreAny) : Prop :=
         match l with
         | [] => True
         | c :: l' => distinctKeys c /\ items l'
         end) elems
  | _ => True
  end.

(** The array of the sample document rendered as the root of an RTDB
    editor, its deepest editor, and the whole sample document rendered with
    immutable root fields. *)
Definition sampleTags : NestedEditorProps :=
  {| path := ["tags"]; isKeyMutable := true; isRtdb := Some true |}.

Definition sampleRendered : Rendered :=
  default (RNestedEditor sampleTags [] None)
    (render (H:=tagHelpers) 3 sampleDocument sampleTags).

Definition sampleDeepest : Rendered :=
  default sampleRendered (last (nodes sampleRendered)).

Definition sampleRenderedDocument : list (Rendered * list Widget) * list Widget :=
  default ([], [])
    (renderDocument (H:=tagHelpers) 3 sampleDocument None (Some false)
       (Some true)).

(** An evaluation that agrees with the first sample evaluation on the line
    and the outcome of each granular outcome, and on nothing else. *)
Definition sampleLookalike : Rules.SampleEvaluation :=
  {| Rules.sampleId := "e9";
     Rules.sampleOutcomes :=
       Some [ {| Rules.sampleLine := 3; Rules.sampleOutcome := "allow";
                 Rules.sampleDetail := "list" |};
              {| Rules.sampleLine := 7; Rules.sampleOutcome := "deny";
                 Rules.sampleDetail := "delete" |} ] |}.

(** The sample store with one more evaluation. *)
Definition sampleStateGrown : Rules.SampleState :=
  {| Rules.sampleEvaluations :=
       Rules.sampleEvaluations Rules.sampleState ++ [sampleLookalike];
     Rules.sampleSelectedId := Some "e1" |}.

End Inspect.

(** ** React's [useEffect], for the effect of the view *)

Module Hooks.
Import Rules.

Section UseEffect.
Context `{Externals}.

(** [Object.is] on the two entries of the dependency array that are not
    strings: the [getEvaluationById] function and the selected evaluation.
    A value of the model stands for one object, which is the same as
    itself. *)
Class ObjectIs := {
  sameFunction :
    (option string -> Eff AppAction) -> (option string -> Eff AppAction) -> bool;
  sameObject :
    option FirestoreRulesEvaluation -> option FirestoreRulesEvaluation -> bool;
  sameFunction_refl : forall f, sameFunction f f = true;
  sameObject_refl : forall e, sameObject e e = true
}.

Context `{!ObjectIs}.

(** React compares the dependency array of line 64 with the one of the
    previous render entry by entry; strings are the same when equal. *)
Definition areHookInputsEqual (previous next : EffectDeps) : bool :=
  sameFunction (depGetEvaluationById previous) (depGetEvaluationById next)
  && bool_decide (depEvaluationId previous = depEvaluationId next)
  && sameObject (depSelectedEvaluation previous) (depSelectedEvaluation next).

(** The effect runs after the first render of the component, which has no
    previous dependencies, and after a render whose dependencies differ
    from those of the render before. *)
Definition effectDue (previous : option EffectDeps) (next : EffectDeps) : bool :=
  match previous with
  | None => true
  | Some deps => negb (areHookInputsEqual deps next)
  end.

(** One render of a mounted connected view, in world [w]: the component is
    called, React runs its effect when it is due, and the dependencies are
    kept for the next render. *)
Definition renderInstance (previous : option EffectDeps) (w : World)
  (params : RouteParams) : option EffectDeps * World :=
  let view := ConnectedEvaluationDetails (appState w) params in
  (Some (effectDeps view),
   if effectDue previous (effectDeps view) then (effect view w).2 else w).

(** The same instance rendered once for each route id of [ids], with no
    other update of the store in between. *)
Definition renderSequence (previous : option EffectDeps) (w : World)
  (ids : list string) : option EffectDeps * World :=
  foldl (fun s id => renderInstance s.1 s.2 {| evaluationId := id |})
    (previous, w) ids.

End UseEffect.

#[global] Instance SampleOutcome_eq_dec : EqDecision SampleOutcome.
Proof. solve_decision. Defined.

#[global] Instance SampleEvaluation_eq_dec : EqDecision SampleEvaluation.
Proof. solve_decision. Defined.

(** Modelled from the spec: object identity in the sample store.  The
    connected component receives the one [getEvaluationById] that
    [mapDispatchToProps] builds for it, and the selector hands out the
    evaluation held by the store, the same object while it is the same
    evaluation. *)
Definition sampleSameObject (e e' : option SampleEvaluation) : bool :=
  bool_decide (e = e').

Definition sampleObjectIs : ObjectIs (H:=sampleExternals) :=
  @Build_ObjectIs sampleExternals
    (fun _ _ => true)
    sampleSameObject
    (fun _ => eq_refl)
    (fun e => bool_decide_eq_true_2 (e = e) (eq_refl e)).

(** The sample store before anything was dispatched. *)
Definition sampleWorld : World (H:=sampleExternals) :=
  @Build_World sampleExternals sampleState [].

End Hooks.

(** * Properties *)

Import Model Utils Store.

(** ** Paths and lookups *)

Lemma toString_inj (i j : nat) : toString i = toString j -> i = j.
Proof.
  unfold toString. intros E.
  assert (Some (Nat.to_uint i) = Some (Nat.to_uint j)) as [= E'].
  { rewrite <- !NilEmpty.usu. by rewrite E. }
  rewrite <- (Unsigned.of_to i), <- (Unsigned.of_to j). by rewrite E'.
Qed.

Lemma arrayGet_toString (elems : list FirestoreAny) (i : nat) :
  arrayGet elems (toString i) = elems !! i.
Proof.
  unfold arrayGet, toString. rewrite NilEmpty.usu. simpl.
  rewrite Unsigned.of_to. by rewrite decide_True.
Qed.

Lemma getIn_app (v : FirestoreAny) (p q : list string) :
  getIn v (p ++ q) = c ← getIn v p; getIn c q.
Proof.
  revert v. induction p as [|k p IH]; intros v; simpl; [done|].
  destruct (getProperty v k) as [c|]; simpl; [apply IH|done].
Qed.

Lemma useFieldState_child (doc : FirestoreMap) (p : list string) (k : string) :
  useFieldState doc (p ++ [k]) = c ← useFieldState doc p; getProperty c k.
Proof.
  unfold useFieldState. rewrite getIn_app.
  destruct (getIn (FMap doc) p) as [c|]; simpl; [|done].
  by destruct (getProperty c k).
Qed.

Lemma mapGet_key (fields : FirestoreMap) (k : string) :
  k ∈ Object_keys fields ->
  exists c, mapGet fields k = Some c /\ (k, c) ∈ fields.
Proof.
  unfold Object_keys. induction fields as [|[k' v] rest IH]; simpl.
  - by intros ?%elem_of_nil.
  - intros [->|Hin]%elem_of_cons.
    + exists v. rewrite decide_True by done. split; [done|left].
    + destruct (decide (k' = k)) as [->|].
      * exists v. split; [done|left].
      * destruct (IH Hin) as (c & ? & ?). exists c. split; [done|by right].
Qed.

Lemma size_pos (v : FirestoreAny) : 0 < size v.
Proof. destruct v; simpl; lia. Qed.

Lemma size_entry (fields : FirestoreMap) (k : string) (c : FirestoreAny) :
  (k, c) ∈ fields -> size c < size (FMap fields).
Proof.
  induction fields as [|[k' v] rest IH]; simpl.
  - by intros ?%elem_of_nil.
  - intros [[= -> ->]|Hin]%elem_of_cons; [lia|].
    specialize (IH Hin). simpl in IH. lia.
Qed.

Lemma size_element (elems : list FirestoreAny) (c : FirestoreAny) :
  c ∈ elems -> size c < size (FArray elems).
Proof.
  induction elems as [|v rest IH]; simpl.
  - by intros ?%elem_of_nil.
  - intros [->|Hin]%elem_of_cons; [lia|].
    specialize (IH Hin). simpl in IH. lia.
Qed.

Lemma depth_entry (fields : FirestoreMap) (k : string) (c : FirestoreAny) :
  (k, c) ∈ fields -> depth c < depth (FMap fields).
Proof.
  induction fields as [|[k' v] rest IH]; simpl.
  - by intros ?%elem_of_nil.
  - intros [[= -> ->]|Hin]%elem_of_cons; [lia|].
    specialize (IH Hin). simpl in IH. lia.
Qed.

Lemma depth_element (elems : list FirestoreAny) (c : FirestoreAny) :
  c ∈ elems -> depth c < depth (FArray elems).
Proof.
  induction elems as [|v rest IH]; simpl.
  - by intros ?%elem_of_nil.
  - intros [->|Hin]%elem_of_cons; [lia|].
    specialize (IH Hin). simpl in IH. lia.
Qed.

Lemma immediateSubtree_smaller (child parent : FirestoreAny) :
  DocumentEditor.immediateSubtree child parent ->
  size child < size parent /\ depth child < depth parent.
Proof.
  destruct parent; simpl; try done.
  - intros [k Hin]. eauto using size_entry, depth_entry.
  - intros Hin. eauto using size_element, depth_element.
Qed.

(** ** The nested editor *)

Section NestedEditorProperties.
Import DocumentEditor.
Context `{Helpers}.

Lemma leafEditors_renderRow (props : NestedEditorProps) (state : FieldState)
  (key : string) :
  leafEditors (renderRow props state key) = fieldEditor (path props) state.
Proof.
  unfold renderRow, leafEditors.
  destruct state as [[]|]; simpl;
    destruct (bool_decide (1 < length (path props))); reflexivity.
Qed.

Lemma render_props (fuel : nat) (doc : FirestoreMap) (props : NestedEditorProps)
  (r : Rendered) :
  render fuel doc props = Some r -> renderedProps r = props.
Proof.
  destruct fuel as [|fuel]; simpl; [done|].
  destruct (renderChildEditors _ _) as [cs|]; simpl.
  - destruct (mapM _ cs); simpl; [|done]. by intros [= <-].
  - by intros [= <-].
Qed.


Lemma render_S (fuel : nat) (doc : FirestoreMap) (props : NestedEditorProps) :
  render (S fuel) doc props =
    children ← match childEditors (NestedEditor doc props) with
               | None => Some None
               | Some cs => Some <$> mapM (render fuel doc) cs
               end;
    Some (RNestedEditor props (row (NestedEditor doc props)) children).
Proof. reflexivity. Qed.

(** With more fuel the result is the same. *)
Lemma render_fuel_S (fuel : nat) (doc : FirestoreMap) :
  forall (props : NestedEditorProps) (r : Rendered),
    render fuel doc props = Some r -> render (S fuel) doc props = Some r.
Proof.
  induction fuel as [|fuel IH]; intros props r; [done|].
  rewrite (render_S (S fuel)), (render_S fuel).
  destruct (childEditors (NestedEditor doc props)) as [cs|]; [|done].
  destruct (mapM (render fuel doc) cs) as [rs|] eqn:Ers; [|done].
  assert (mapM (render (S fuel) doc) cs = Some rs) as ->; [|done].
  apply mapM_Some. apply mapM_Some in Ers.
  eapply Forall2_impl; [exact Ers|]. intros c r'. apply IH.
Qed.

Lemma render_fuel_le (fuel fuel' : nat) (doc : FirestoreMap)
  (props : NestedEditorProps) (r : Rendered) :
  fuel <= fuel' -> render fuel doc props = Some r ->
  render fuel' doc props = Some r.
Proof.
  induction 1 as [|fuel' _ IH]; [done|].
  intros E. by apply render_fuel_S, IH.
Qed.

(** Every element returned for a child reads a strict subtree. *)
Lemma child_reads_subtree (doc : FirestoreMap) (props c : NestedEditorProps)
  (cs : list NestedEditorProps) :
  childEditors (NestedEditor doc props) = Some cs -> c ∈ cs ->
  exists parent child,
    useFieldState doc (path props) = Some parent
    /\ useFieldState doc (path c) = Some child
    /\ immediateSubtree child parent.
Proof.
  simpl. unfold renderChildEditors.
  destruct (useFieldState doc (path props)) as [parent|] eqn:Ep; [|done].
  destruct parent as [| | | | | | |fields|elems]; try done.
  - intros [= <-] (k & -> & Hk)%list_elem_of_fmap.
    destruct (mapGet_key _ _ Hk) as (child & Eget & Hin).
    exists (FMap fields), child. simpl.
    rewrite useFieldState_child, Ep. simpl. eauto.
  - intros [= <-] Hin.
    apply elem_of_lookup_imap in Hin as (i & child & -> & Ei).
    exists (FArray elems), child. simpl.
    rewrite useFieldState_child, Ep. simpl. rewrite arrayGet_toString.
    split_and!; [done..|]. by eapply list_elem_of_lookup_2.
Qed.

(** Enough fuel: more than the nesting depth of the field that is read. *)
Lemma render_total (fuel : nat) (doc : FirestoreMap) :
  forall props : NestedEditorProps,
    stateDepth (useFieldState doc (path props)) < fuel ->
    is_Some (render fuel doc props).
Proof.
  induction fuel as [|fuel IH]; intros props Hd; [lia|].
  simpl. destruct (renderChildEditors _ _) as [cs|] eqn:Ecs; simpl; [|by eexists].
  assert (is_Some (mapM (render fuel doc) cs)) as [rs ->]; [|by eexists].
  apply mapM_is_Some, Forall_forall. intros c Hc. simpl. apply IH.
  destruct (child_reads_subtree doc props c cs Ecs Hc)
    as (parent & child & Ep & Ec & Hsub).
  rewrite Ep in Hd. rewrite Ec. simpl in *.
  apply immediateSubtree_smaller in Hsub. lia.
Qed.

End NestedEditorProperties.

Section NestedEditorTheorems.
Import DocumentEditor.
Context `{Helpers}.

(** C1, as amended.  The leaf editors of the row of a [NestedEditor] are
    selected by the tag of the field value alone: a string, number, boolean,
    geopoint, timestamp or reference gets exactly its own editor, with the
    value and [handleEditValue] as props; the six guards exclude each other,
    so no row has more than one leaf editor; and a map, an array, null (or a
    missing field) gets no leaf editor. *)
Theorem leaf_editor_dispatch (props : NestedEditorProps) (state : FieldState)
  (key : string) :
  leafEditors (row (NestedEditorBody props state key)) =
    match state with
    | Some (FString _) => [StringEditor state (handleEditValue (path props))]
    | Some (FNumber _) => [NumberEditor state (handleEditValue (path props))]
    | Some (FBoolean _) => [BooleanEditor state (handleEditValue (path props))]
    | Some (FGeoPoint _) => [GeoPointEditor state (handleEditValue (path props))]
    | Some (FTimestamp _) => [TimestampEditor state (handleEditValue (path props))]
    | Some (FReference _) => [ReferenceEditor state (handleEditValue (path props))]
    | Some (FMap _) | Some (FArray _) | Some FNull | None => []
    end
  /\ length (guardsHolding state) <= 1
  /\ length (leafEditors (row (NestedEditorBody props state key)))
     = length (guardsHolding state).
Proof.
  unfold NestedEditorBody. cbn [row]. rewrite leafEditors_renderRow.
  destruct state as [[]|]; simpl; repeat split; lia.
Qed.


(** C7.  The rendering traversal terminates on every document: for every
    document and every [NestedEditor] element there is a rendered tree that
    [render] returns for every amount of fuel above the nesting depth of the
    field read; and every child element reads an entry of the map, or an
    element of the array, that its parent reads, a strictly smaller value.
    The whole document renders with fuel equal to its nesting depth. *)
Theorem render_terminates (doc : FirestoreMap) (props : NestedEditorProps) :
  (exists r : Rendered,
      forall fuel : nat,
        stateDepth (useFieldState doc (path props)) < fuel ->
        render fuel doc props = Some r)
  /\ (forall (cs : list NestedEditorProps) (c : NestedEditorProps),
         childEditors (NestedEditor doc props) = Some cs -> c ∈ cs ->
         exists parent child : FirestoreAny,
           useFieldState doc (path props) = Some parent
           /\ useFieldState doc (path c) = Some child
           /\ immediateSubtree child parent
           /\ size child < size parent)
  /\ (forall keysMutable fieldsMutable rtdb : option bool,
         exists tree,
           forall fuel : nat,
             depth (FMap doc) <= fuel ->
             renderDocument fuel doc keysMutable fieldsMutable rtdb = Some tree).
Proof.
  split_and!.
  - destruct (render_total (S (stateDepth (useFieldState doc (path props))))
                doc props) as [r Er]; [lia|].
    exists r. intros fuel Hfuel. eapply render_fuel_le; [|exact Er]. lia.
  - intros cs c Ecs Hc.
    destruct (child_reads_subtree doc props c cs Ecs Hc)
      as (parent & child & Ep & Ec & Hsub).
    exists parent, child. split_and!; [done..|].
    by apply immediateSubtree_smaller.
  - intros keysMutable fieldsMutable rtdb. unfold renderDocument.
    set (root := DocumentEditor doc false keysMutable fieldsMutable rtdb).
    set (step := fun fuel '(p, buttons) =>
                   r ← render fuel doc p; Some (r, buttons : list Widget)).
    assert (is_Some (mapM (step (depth (FMap doc))) (rootFields root)))
      as [fields Efields].
    { apply mapM_is_Some, Forall_forall.
      intros [p buttons] (field & [= -> ->] & Hfield)%list_elem_of_fmap.
      destruct (mapGet_key _ _ Hfield) as (c & Ec & Hin).
      destruct (render_total (depth (FMap doc)) doc
                  {| path := [field]; isKeyMutable := default true keysMutable;
                     isRtdb := rtdb |}) as [r Er].
      - unfold useFieldState. cbn [path getIn getProperty]. rewrite Ec.
        cbn. by eapply depth_entry.
      - unfold compose, step. rewrite Er. by eexists. }
    exists (fields, rootAdd root). intros fuel Hfuel.
    change ((fs ← mapM (step fuel) (rootFields root); Some (fs, rootAdd root))
            = Some (fields, rootAdd root)).
    assert (mapM (step fuel) (rootFields root) = Some fields) as ->; [|done].
    apply mapM_Some. apply mapM_Some in Efields.
    eapply Forall2_impl; [exact Efields|].
    intros [p buttons] [r buttons']. unfold step.
    destruct (render (depth (FMap doc)) doc p) as [r0|] eqn:Er0; [|done].
    by rewrite (render_fuel_le _ fuel _ _ _ Hfuel Er0).
Qed.

(** C9.  In the row of an array at path [p], the add-field button
    dispatches [addField] with the path [p ++ [toString (length p)]] and the
    empty string as value: the key is the number of path segments, whatever
    the number of elements.  When the array's length differs from the
    length of its path, that key is not the next index of the array. *)
Theorem array_add_field_key (props : NestedEditorProps)
  (elems : list FirestoreAny) (key : string) :
  clicks "add" (row (NestedEditorBody props (Some (FArray elems)) key)) =
    [addField (path props ++ [toString (length (path props))]) (FString emptyString)]
  /\ (length elems <> length (path props) ->
      toString (length (path props)) <> toString (length elems)).
Proof.
  split.
  - simpl. unfold renderRow, clicks. simpl.
    destruct (bool_decide (1 < length (path props))); reflexivity.
  - intros Hne E. apply toString_inj in E. congruence.
Qed.

(** C10.  [supportsEditing] holds of a value exactly when [getFieldType]
    of it is one of the nine Firestore field types.  It takes no [rtdb]
    flag: the type selector of an RTDB editor offers only string, number,
    boolean, map and array, and a value of type null, timestamp, geopoint
    or reference still supports editing although the selector does not
    offer its type. *)
Theorem supportsEditing_iff_firestore_type (value : FirestoreAny) :
  (supportsEditing value = true <->
   getFieldType (Some value)
     ∈ [STRING; NUMBER; BOOLEAN; MAP; ARRAY; NULL; TIMESTAMP; GEOPOINT; REFERENCE])
  /\ (forall (props : NestedEditorProps) (state : FieldState) (key : string),
         isRtdb props = Some true ->
         selectOptions (row (NestedEditorBody props state key))
         = [[STRING; NUMBER; BOOLEAN; MAP; ARRAY]])
  /\ (getFieldType (Some value) ∈ [NULL; TIMESTAMP; GEOPOINT; REFERENCE] ->
      supportsEditing value = true
      /\ getFieldType (Some value) ∉ [STRING; NUMBER; BOOLEAN; MAP; ARRAY]).
Proof.
  assert (supportsEditing value = true <->
          getFieldType (Some value) ∈ FIRESTORE_FIELD_TYPES) as Hiff.
  { unfold supportsEditing, supportedFieldTypeSet.
    rewrite bool_decide_eq_true. apply elem_of_list_to_set. }
  split_and!.
  - exact Hiff.
  - intros props state key Hrtdb. simpl. unfold renderRow, selectOptions.
    rewrite Hrtdb.
    destruct state as [[]|]; simpl;
      destruct (bool_decide (1 < length (path props))); reflexivity.
  - intros Hin.
    assert (forall t : FieldType,
               t ∈ [NULL; TIMESTAMP; GEOPOINT; REFERENCE] ->
               t ∈ FIRESTORE_FIELD_TYPES
               /\ t ∉ [STRING; NUMBER; BOOLEAN; MAP; ARRAY]) as Hall.
    { intros t Ht.
      repeat (apply elem_of_cons in Ht as [->|Ht]);
        [..|by apply elem_of_nil in Ht];
        (split; apply (bool_decide_unpack _); by vm_compute). }
    destruct (Hall _ Hin) as [Hnine Hfive]. split; [by apply Hiff|done].
Qed.

End NestedEditorTheorems.

(** ** The nested editor on the sample document *)

Section NestedEditorExamples.
Import DocumentEditor.
#[local] Existing Instance tagHelpers.

(** C1 as first written asks for a leaf editor for every value, null
    included.  The field [none] of the sample document is null: its row has
    a key field and a type selector, no leaf editor, and none of the six
    guards holds of it. *)
Lemma null_field_has_no_leaf_editor :
  let elements :=
    NestedEditor sampleDocument
      {| path := ["none"]; isKeyMutable := true; isRtdb := None |} in
  useFieldState sampleDocument ["none"] = Some FNull
  /\ leafEditors (row elements) = []
  /\ guardsHolding (Some FNull) = []
  /\ ~ (exists editor, leafEditors (row elements) = [editor]).
Proof.
  split_and!; [reflexivity..|]. intros [editor E]. discriminate E.
Qed.

(** The array [tags] nests a map: two units of fuel are not enough to
    render it, three are. *)
Example render_tags_fuel :
  let tags := {| path := ["tags"]; isKeyMutable := true; isRtdb := None |} in
  stateDepth (useFieldState sampleDocument ["tags"]) = 2
  /\ render 2 sampleDocument tags = None
  /\ is_Some (render 3 sampleDocument tags).
Proof. split_and!; [reflexivity..|]. by eexists. Qed.


Lemma render_terminates_witness :
  let tags := {| path := ["tags"]; isKeyMutable := true; isRtdb := None |} in
  let third := {| path := ["tags"; "2"]; isKeyMutable := false; isRtdb := None |} in
  third ∈ default [] (childEditors (NestedEditor sampleDocument tags))
  /\ exists parent child : FirestoreAny,
       useFieldState sampleDocument ["tags"] = Some parent
       /\ useFieldState sampleDocument ["tags"; "2"] = Some child
       /\ immediateSubtree child parent
       /\ size child < size parent.
Proof.
  intros tags third.
  assert (third ∈ default [] (childEditors (NestedEditor sampleDocument tags)))
    as Hin by (simpl; repeat constructor).
  split; [exact Hin|].
  exact (proj1 (proj2 (render_terminates sampleDocument tags))
           _ third eq_refl Hin).
Defined.

Lemma array_add_field_key_witness :
  let tags := {| path := ["tags"]; isKeyMutable := true; isRtdb := None |} in
  useFieldState sampleDocument ["tags"]
  = Some (FArray [FString "x"; FNumber 2%float; FMap [("deep", FNull)]])
  /\ clicks "add" (row (NestedEditor sampleDocument tags))
     = [addField ["tags"; "1"] (FString emptyString)]
  /\ toString 1 <> toString 3.
Proof.
  intros tags.
  pose proof (array_add_field_key tags
                [FString "x"; FNumber 2%float; FMap [("deep", FNull)]] "tags")
    as [Eclick Hkey].
  split_and!; [reflexivity|exact Eclick|].
  apply Hkey. simpl. lia.
Defined.

Lemma supportsEditing_iff_firestore_type_witness :
  let rtdbRoot := {| path := ["none"]; isKeyMutable := true; isRtdb := Some true |} in
  supportsEditing FNull = true
  /\ selectOptions (row (NestedEditor sampleDocument rtdbRoot))
     = [[STRING; NUMBER; BOOLEAN; MAP; ARRAY]]
  /\ getFieldType (Some FNull) ∉ [STRING; NUMBER; BOOLEAN; MAP; ARRAY].
Proof.
  intros rtdbRoot.
  pose proof (supportsEditing_iff_firestore_type FNull) as (_ & Hoptions & Hmore).
  destruct Hmore as [Hedit Hnot].
  { apply (bool_decide_unpack _). by vm_compute. }
  split_and!; [exact Hedit| |exact Hnot].
  exact (Hoptions rtdbRoot (useFieldState sampleDocument ["none"]) "none" eq_refl).
Defined.

End NestedEditorExamples.

(** ** The evaluation details view *)

Section EvaluationDetailsProperties.
Import Rules.
Context `{Externals}.

Lemma code_EvaluationDetails (props : Props) (params : RouteParams) :
  code (EvaluationDetails props params) =
    {| linesOutcome := computeLinesOutcome (selectedEvaluation props.1);
       firestoreRules := sampleRules |}.
Proof.
  unfold EvaluationDetails.
  by destruct (useEvaluationCleanMainData _) as [[[[? ?] ?] ?] ?].
Qed.

Lemma header_EvaluationDetails (props : Props) (params : RouteParams) :
  let h := header (EvaluationDetails props params) in
  (requestTimeComplete h, requestTimeFromNow h, requestMethod h,
   resourceSubPaths h, outcomeData h)
  = useEvaluationCleanMainData (selectedEvaluation props.1).
Proof.
  unfold EvaluationDetails.
  by destruct (useEvaluationCleanMainData _) as [[[[? ?] ?] ?] ?].
Qed.

Lemma effect_EvaluationDetails (props : Props) (params : RouteParams) :
  effect (EvaluationDetails props params) =
    bind (getEvaluationById props.2 (Some (evaluationId params)))
         (fun _ => ret tt).
Proof.
  unfold EvaluationDetails.
  by destruct (useEvaluationCleanMainData _) as [[[[? ?] ?] ?] ?].
Qed.

Lemma effectDeps_EvaluationDetails (props : Props) (params : RouteParams) :
  effectDeps (EvaluationDetails props params) =
    {| depGetEvaluationById := getEvaluationById props.2;
       depEvaluationId := evaluationId params;
       depSelectedEvaluation := selectedEvaluation props.1 |}.
Proof.
  unfold EvaluationDetails.
  by destruct (useEvaluationCleanMainData _) as [[[[? ?] ?] ?] ?].
Qed.

Lemma connected_selectedEvaluation (state : AppState) :
  selectedEvaluation (connectedProps state).1
  = getSelectedRequestEvaluation state.
Proof. reflexivity. Qed.

(** Running the effect of the connected view: one action goes through the
    store. *)
Lemma connected_effect (w : World) (params : RouteParams) :
  effect (ConnectedEvaluationDetails (appState w) params) w =
    (tt,
     {| appState :=
          reducer (appState w)
            (getRequestEvaluationById (Some (evaluationId params)));
        dispatched :=
          dispatched w
          ++ [getRequestEvaluationById (Some (evaluationId params))] |}).
Proof.
  unfold ConnectedEvaluationDetails. by rewrite effect_EvaluationDetails.
Qed.

Lemma computeLinesOutcome_lookup (evaluation : FirestoreRulesEvaluation)
  (outcomes : list GranularAllowOutcome) :
  granularAllowOutcomes evaluation = Some outcomes ->
  computeLinesOutcome (Some evaluation) =
    Some (List.map (fun g => {| line := granularLine g;
                                outcome := granularOutcome g |}) outcomes).
Proof. unfold computeLinesOutcome. by intros ->. Qed.

End EvaluationDetailsProperties.

Section EvaluationDetailsTheorems.
Import Rules.
Context `{Externals}.

(** C2.  When the selected evaluation has a list of granular allow
    outcomes, the [linesOutcome] prop of [EvaluationDetailsCode] is a list of
    the same length whose element at each position is the record of the
    [line] and the [outcome] of the granular outcome at that position; when
    there is no selected evaluation, or it has no such list, the prop is
    [undefined]. *)
Theorem linesOutcome_mirrors_granular (props : Props) (params : RouteParams) :
  match selectedEvaluation props.1 with
  | Some evaluation =>
      match granularAllowOutcomes evaluation with
      | Some outcomes =>
          exists lines : list LineOutcome,
            linesOutcome (code (EvaluationDetails props params)) = Some lines
            /\ length lines = length outcomes
            /\ forall (i : nat) (g : GranularAllowOutcome),
                 outcomes !! i = Some g ->
                 lines !! i = Some {| line := granularLine g;
                                      outcome := granularOutcome g |}
      | None => linesOutcome (code (EvaluationDetails props params)) = None
      end
  | None => linesOutcome (code (EvaluationDetails props params)) = None
  end.
Proof.
  rewrite code_EvaluationDetails. cbn [linesOutcome].
  destruct (selectedEvaluation props.1) as [evaluation|]; [|done].
  destruct (granularAllowOutcomes evaluation) as [outcomes|] eqn:E.
  - rewrite (computeLinesOutcome_lookup _ _ E). eexists. split_and!; [done|..].
    + apply length_map.
    + intros i g Hi. change (List.map ?f ?l) with (f <$> l).
      by rewrite list_lookup_fmap, Hi.
  - unfold computeLinesOutcome. by rewrite E.
Qed.

(** C6.  [mapStateToProps] is the structured selector of the single
    selector [getSelectedRequestEvaluation], under the name
    [selectedEvaluation]; for every store state the [selectedEvaluation]
    prop that the connected component hands to [EvaluationDetails] is the
    result of that selector on the state. *)
Theorem selectedEvaluation_is_selector (state : AppState) :
  mapStateToProps state
  = [("selectedEvaluation", getSelectedRequestEvaluation state)]
  /\ selectedEvaluation (connectedProps state).1
     = getSelectedRequestEvaluation state
  /\ forall params : RouteParams,
       depSelectedEvaluation
         (effectDeps (ConnectedEvaluationDetails state params))
       = getSelectedRequestEvaluation state.
Proof.
  split_and!; [reflexivity..|].
  intros params. unfold ConnectedEvaluationDetails.
  by rewrite effectDeps_EvaluationDetails.
Qed.

(** C8.  The [firestoreRules] prop of [EvaluationDetailsCode] is
    [sampleRules] for every selected evaluation (none included), every
    [getEvaluationById] and every route: two renders show the same rules
    text whatever their props and their [evaluationId], and so does the
    connected view for every store state. *)
Theorem rules_text_is_sampleRules (props : Props) (params : RouteParams) :
  firestoreRules (code (EvaluationDetails props params)) = sampleRules
  /\ (forall (props' : Props) (params' : RouteParams),
         firestoreRules (code (EvaluationDetails props' params'))
         = firestoreRules (code (EvaluationDetails props params)))
  /\ (forall state : AppState,
         firestoreRules (code (ConnectedEvaluationDetails state params))
         = sampleRules).
Proof.
  split_and!; intros; unfold ConnectedEvaluationDetails;
    by rewrite !code_EvaluationDetails.
Qed.

End EvaluationDetailsTheorems.

(** ** The view on the sample store *)

Section EvaluationDetailsExamples.
Import Rules.
#[local] Existing Instance sampleExternals.

Lemma linesOutcome_mirrors_granular_witness :
  exists lines : list LineOutcome,
    linesOutcome
      (code (ConnectedEvaluationDetails sampleState {| evaluationId := "e1" |}))
    = Some lines
    /\ length lines = 2
    /\ lines !! 1 = Some {| line := 7; outcome := "deny" |}.
Proof.
  pose proof (linesOutcome_mirrors_granular (connectedProps sampleState)
                {| evaluationId := "e1" |}) as Hthm.
  rewrite connected_selectedEvaluation in Hthm. cbn in Hthm.
  destruct Hthm as (lines & E & Hlen & Hat).
  exists lines. split_and!; [exact E|exact Hlen|].
  exact (Hat 1 {| sampleLine := 7; sampleOutcome := "deny";
                  sampleDetail := "write" |} eq_refl).
Defined.

End EvaluationDetailsExamples.

(** * Further properties of the editor *)

Section RenderedTrees.
Import DocumentEditor Inspect.
Context `{Helpers}.

Lemma nodes_unfold (props : NestedEditorProps) (row : list Widget)
  (children : option (list Rendered)) :
  nodes (RNestedEditor props row children) =
    RNestedEditor props row children :: (default [] children ≫= nodes).
Proof.
  simpl. f_equal. destruct children as [rs|]; [|done]. simpl.
  induction rs as [|c rs IH]; [done|]. simpl. by rewrite IH.
Qed.

Lemma nodes_root_or_descendant (r n : Rendered) :
  n ∈ nodes r <-> n = r \/ n ∈ descendants r.
Proof.
  destruct r as [props row children]. rewrite nodes_unfold.
  unfold descendants. simpl. apply elem_of_cons.
Qed.

(** What [render] returns, piece by piece. *)
Lemma render_Some (fuel : nat) (doc : FirestoreMap) (props : NestedEditorProps)
  (r : Rendered) :
  render fuel doc props = Some r ->
  exists fuel' : nat,
    fuel = S fuel'
    /\ renderedProps r = props
    /\ renderedRow r = row (NestedEditor doc props)
    /\ match childEditors (NestedEditor doc props) with
       | None => renderedChildren r = None
       | Some cs =>
           exists rs, renderedChildren r = Some rs
                      /\ Forall2 (fun c r' => render fuel' doc c = Some r') cs rs
       end.
Proof.
  destruct fuel as [|fuel]; [done|]. rewrite render_S.
  destruct (childEditors (NestedEditor doc props)) as [cs|].
  - destruct (mapM (render fuel doc) cs) as [rs|] eqn:E; [|done].
    intros [= <-]. exists fuel. split_and!; [done..|].
    exists rs. split; [done|]. by apply mapM_Some.
  - intros [= <-]. by exists fuel.
Qed.

(** A property of elements that passes from an editor to the child
    elements it returns holds of every editor of the rendered tree. *)
Lemma render_nodes_invariant (doc : FirestoreMap)
  (Q : NestedEditorProps -> Prop) :
  (forall (props c : NestedEditorProps) (cs : list NestedEditorProps),
      Q props -> childEditors (NestedEditor doc props) = Some cs ->
      c ∈ cs -> Q c) ->
  forall (fuel : nat) (props : NestedEditorProps) (r : Rendered),
    render fuel doc props = Some r -> Q props ->
    forall n : Rendered,
      n ∈ nodes r ->
      Q (renderedProps n)
      /\ renderedRow n = row (NestedEditor doc (renderedProps n)).
Proof.
  intros Hstep. induction fuel as [|fuel IH]; intros props r Hr HQ n Hn; [done|].
  destruct (render_Some _ _ _ _ Hr) as (fuel' & [= <-] & Hprops & Hrow & Hch).
  apply nodes_root_or_descendant in Hn as [->|Hn].
  { by rewrite Hprops. }
  unfold descendants in Hn.
  destruct (childEditors (NestedEditor doc props)) as [cs|] eqn:Ecs.
  - destruct Hch as (rs & Ers & Hall). rewrite Ers in Hn. simpl in Hn.
    apply list_elem_of_bind in Hn as (r' & Hn & Hr').
    apply list_elem_of_lookup in Hr' as [i Hi].
    destruct (Forall2_lookup_r _ _ _ _ _ Hall Hi) as (c & Hc & Hrender).
    apply (IH c r' Hrender); [|done].
    eapply Hstep; [exact HQ|exact Ecs|]. by eapply list_elem_of_lookup_2.
  - rewrite Hch in Hn. simpl in Hn. by apply elem_of_nil in Hn.
Qed.

(** Every editor below the root was returned as a child element by an
    editor of the tree. *)
Lemma descendant_is_child (doc : FirestoreMap) :
  forall (fuel : nat) (props : NestedEditorProps) (r n : Rendered),
    render fuel doc props = Some r -> n ∈ descendants r ->
    exists (parent : NestedEditorProps) (cs : list NestedEditorProps),
      path props `prefix_of` path parent
      /\ childEditors (NestedEditor doc parent) = Some cs
      /\ renderedProps n ∈ cs
      /\ renderedRow n = row (NestedEditor doc (renderedProps n)).
Proof.
  induction fuel as [|fuel IH]; intros props r n Hr Hn; [done|].
  destruct (render_Some _ _ _ _ Hr) as (fuel' & [= <-] & Hprops & Hrow & Hch).
  unfold descendants in Hn.
  destruct (childEditors (NestedEditor doc props)) as [cs|] eqn:Ecs.
  - destruct Hch as (rs & Ers & Hall). rewrite Ers in Hn. simpl in Hn.
    apply list_elem_of_bind in Hn as (r' & Hn & Hr').
    apply list_elem_of_lookup in Hr' as [i Hi].
    destruct (Forall2_lookup_r _ _ _ _ _ Hall Hi) as (c & Hc & Hrender).
    assert (c ∈ cs) as Hin by by eapply list_elem_of_lookup_2.
    destruct (render_Some _ _ _ _ Hrender) as (_ & _ & Hprops' & Hrow' & _).
    apply nodes_root_or_descendant in Hn as [->|Hn].
    + exists props, cs. rewrite Hprops'. by split_and!.
    + destruct (IH c r' n Hrender Hn) as (parent & cs' & Hpre & ? & ? & ?).
      exists parent, cs'. split_and!; [|done..].
      etrans; [|exact Hpre].
      simpl in Ecs. unfold renderChildEditors in Ecs.
      destruct (useFieldState doc (path props)) as [[]|]; try done;
        injection Ecs as <-.
      * apply list_elem_of_fmap in Hin as (k & -> & _). by eexists.
      * apply elem_of_lookup_imap in Hin as (j & e & -> & _). by eexists.
  - rewrite Hch in Hn. simpl in Hn. by apply elem_of_nil in Hn.
Qed.

End RenderedTrees.

Section RowsAndChildren.
Import DocumentEditor Inspect.
Context `{Helpers}.

(** The shape of a child element: one more path segment, no [isRtdb], and
    a key that is mutable exactly under a map. *)
Lemma child_element_shape (doc : FirestoreMap) (props c : NestedEditorProps)
  (cs : list NestedEditorProps) :
  childEditors (NestedEditor doc props) = Some cs -> c ∈ cs ->
  exists k : string,
    path c = path props ++ [k]
    /\ isRtdb c = None
    /\ match useFieldState doc (path props) with
       | Some (FMap fields) => isKeyMutable c = true /\ k ∈ Object_keys fields
       | Some (FArray elems) =>
           isKeyMutable c = false
           /\ exists i, k = toString i /\ i < length elems
       | _ => False
       end.
Proof.
  simpl. unfold renderChildEditors.
  destruct (useFieldState doc (path props)) as [[]|]; try done.
  - intros [= <-] (k & -> & Hk)%list_elem_of_fmap. by exists k.
  - intros [= <-] (i & e & -> & Hi)%elem_of_lookup_imap.
    exists (toString i). split_and!; [done..|].
    exists i. split; [done|]. by eapply lookup_lt_Some.
Qed.

Lemma selectOptions_renderRow (props : NestedEditorProps) (state : FieldState)
  (key : string) :
  selectOptions (renderRow props state key) =
    [if truthy (isRtdb props) then RTDB_FIELD_TYPES else FIRESTORE_FIELD_TYPES].
Proof.
  unfold renderRow, selectOptions.
  destruct state as [[]|]; simpl;
    destruct (bool_decide (1 < length (path props))); reflexivity.
Qed.

Lemma keyFields_renderRow (props : NestedEditorProps) (state : FieldState)
  (key : string) :
  keyFields (renderRow props state key) = [keyField props key].
Proof.
  unfold renderRow, keyFields.
  destruct state as [[]|]; simpl;
    destruct (bool_decide (1 < length (path props))); reflexivity.
Qed.

(** Every action that the handlers of a row dispatch. *)
Lemma renderRow_actions (props : NestedEditorProps) (state : FieldState)
  (key : string) (value : FirestoreAny) (type : FieldType) (a : Action) :
  a ∈ rowActions value type (renderRow props state key) ->
  match a with
  | addField p v =>
      v = FString emptyString
      /\ ((isMap state = true /\ p = path props ++ [emptyString])
          \/ (isArray state = true
              /\ p = path props ++ [toString (length (path props))]))
  | updateField p v =>
      p = path props /\ v = value
      /\ isPrimitive state = true /\ state <> Some FNull /\ state <> None
  | deleteField p =>
      p = path props /\ 1 < length p /\ isPrimitive state = true
  | updateKey p k => p = path props /\ k = key /\ isKeyMutable props = true
  | updateType p t => p = path props /\ t = type
  end.
Proof.
  destruct props as [p mutable rtdb]. unfold rowActions, renderRow, keyField.
  cbn [path isKeyMutable isRtdb].
  destruct (bool_decide (1 < length p)) eqn:Elen;
    [apply bool_decide_eq_true in Elen|];
    destruct mutable; destruct state as [[]|]; simpl;
    intros Ha;
    repeat (apply elem_of_cons in Ha as [->|Ha]);
    try (by apply elem_of_nil in Ha);
    unfold handleEditValue, handleKeyBlur; naive_solver.
Qed.

End RowsAndChildren.

Section CountingEditors.
Import DocumentEditor Inspect.
Context `{Helpers}.

Lemma size_FMap (fields : FirestoreMap) :
  size (FMap fields) = S (sum_list_with (fun e => size e.2) fields).
Proof.
  simpl. f_equal. induction fields as [|[k c] rest IH]; [done|].
  simpl. by rewrite IH.
Qed.

Lemma size_FArray (elems : list FirestoreAny) :
  size (FArray elems) = S (sum_list_with size elems).
Proof. reflexivity. Qed.

Lemma distinctKeys_FMap (fields : FirestoreMap) :
  distinctKeys (FMap fields) <->
  NoDup (Object_keys fields) /\ Forall (fun e => distinctKeys e.2) fields.
Proof.
  simpl. apply and_iff_compat_l.
  induction fields as [|[k c] rest IH]; simpl.
  - split; [by constructor|done].
  - rewrite Forall_cons, IH. done.
Qed.

Lemma distinctKeys_FArray (elems : list FirestoreAny) :
  distinctKeys (FArray elems) <-> Forall distinctKeys elems.
Proof.
  simpl. induction elems as [|c rest IH]; simpl.
  - split; [by constructor|done].
  - rewrite Forall_cons, IH. done.
Qed.

(** With distinct keys, the property [k] of a map is its entry [k]. *)
Lemma mapGet_distinct (fields : FirestoreMap) (i : nat) (k : string)
  (c : FirestoreAny) :
  NoDup (Object_keys fields) -> fields !! i = Some (k, c) ->
  mapGet fields k = Some c.
Proof.
  unfold Object_keys. revert i.
  induction fields as [|[k' c'] rest IH]; intros i Hnd Hi; [done|].
  simpl in *. apply NoDup_cons in Hnd as [Hfresh Hnd].
  destruct i as [|i]; simpl in Hi.
  - injection Hi as -> ->. by rewrite decide_True.
  - rewrite decide_False; [by eapply IH|].
    intros ->. apply Hfresh. apply list_elem_of_fmap.
    exists (k, c). split; [done|]. by eapply list_elem_of_lookup_2.
Qed.

Lemma length_bind_nodes (rs : list Rendered) :
  length (rs ≫= nodes) = sum_list_with (fun r => length (nodes r)) rs.
Proof.
  induction rs as [|r rs IH]; [done|].
  change ((r :: rs) ≫= nodes) with (nodes r ++ (rs ≫= nodes)).
  by rewrite length_app, IH.
Qed.

Lemma sum_list_with_Forall2 {A B : Type} (f : A -> nat) (g : B -> nat)
  (l : list A) (k : list B) :
  Forall2 (fun x y => f x = g y) l k ->
  sum_list_with f l = sum_list_with g k.
Proof. induction 1 as [|x y l k E _ IH]; simpl; [done|]. by rewrite E, IH. Qed.

(** One editor for each value of the field that the root reads. *)
Lemma nodes_count (doc : FirestoreMap) :
  forall (fuel : nat) (props : NestedEditorProps) (r : Rendered)
         (v : FirestoreAny),
    render fuel doc props = Some r ->
    useFieldState doc (path props) = Some v ->
    distinctKeys v ->
    length (nodes r) = size v.
Proof.
  induction fuel as [|fuel IH]; intros props r v Hr Hv Hd; [done|].
  destruct (render_Some _ _ _ _ Hr) as (fuel' & [= <-] & Hprops & Hrow & Hch).
  destruct r as [p row children]. rewrite nodes_unfold.
  cbn [length renderedChildren] in *.
  simpl in Hch. unfold renderChildEditors in Hch. rewrite Hv in Hch.
  destruct v as [| | | | | | |fields|elems];
    try (rewrite Hch; reflexivity).
  - destruct Hch as (rs & -> & Hall).
    change (default [] (Some rs)) with rs.
    rewrite size_FMap, length_bind_nodes. f_equal.
    apply distinctKeys_FMap in Hd as [Hnd Hd].
    apply sum_list_with_Forall2, Forall2_same_length_lookup. split.
    + apply Forall2_length in Hall. rewrite <- Hall.
      unfold Object_keys. by rewrite !length_fmap.
    + intros i r' [k c] Hr' Hi.
      eapply Forall2_lookup_r in Hall as (c' & Hc' & Hrender); [|exact Hr'].
      unfold Object_keys in Hc'. rewrite !list_lookup_fmap, Hi in Hc'.
      injection Hc' as <-. apply (IH _ _ _ Hrender).
      * cbn [path]. rewrite useFieldState_child, Hv. simpl.
        by eapply mapGet_distinct.
      * by apply (Forall_lookup_1 _ _ _ _ Hd Hi).
  - destruct Hch as (rs & -> & Hall).
    change (default [] (Some rs)) with rs.
    rewrite size_FArray, length_bind_nodes. f_equal.
    apply distinctKeys_FArray in Hd.
    apply sum_list_with_Forall2, Forall2_same_length_lookup. split.
    + apply Forall2_length in Hall. rewrite <- Hall. by rewrite length_imap.
    + intros i r' c Hr' Hi.
      eapply Forall2_lookup_r in Hall as (c' & Hc' & Hrender); [|exact Hr'].
      rewrite list_lookup_imap, Hi in Hc'.
      injection Hc' as <-. apply (IH _ _ _ Hrender).
      * cbn [path]. rewrite useFieldState_child, Hv. simpl.
        by rewrite arrayGet_toString.
      * by apply (Forall_lookup_1 _ _ _ _ Hd Hi).
Qed.

End CountingEditors.

Section EditorTheorems.
Import DocumentEditor Inspect.
Context `{Helpers}.

(** X1.  Whatever a leaf editor or the type selector reports, every action
    that a handler of a [NestedEditor] row dispatches carries the editor's
    own path, except [addField], which carries the path of a direct child
    (the empty key under a map, the path length under an array) and the
    empty string as value.  [updateField] is dispatched only for a string,
    number, boolean, geopoint, timestamp or reference, [deleteField] only
    for a primitive at a path of at least two segments, and [updateKey] only
    when the key is mutable, with the local key. *)
Theorem row_actions_are_local (props : NestedEditorProps) (state : FieldState)
  (key : string) (value : FirestoreAny) (type : FieldType) (a : Action) :
  a ∈ rowActions value type (row (NestedEditorBody props state key)) ->
  match a with
  | addField p v =>
      v = FString emptyString
      /\ ((isMap state = true /\ p = path props ++ [emptyString])
          \/ (isArray state = true
              /\ p = path props ++ [toString (length (path props))]))
  | updateField p v =>
      p = path props /\ v = value
      /\ isPrimitive state = true /\ state <> Some FNull /\ state <> None
  | deleteField p =>
      p = path props /\ 1 < length p /\ isPrimitive state = true
  | updateKey p k => p = path props /\ k = key /\ isKeyMutable props = true
  | updateType p t => p = path props /\ t = type
  end.
Proof. apply renderRow_actions. Qed.

(** X2.  In the tree rendered for an element, the path of every editor
    extends the path of the root; every editor reads a field that exists in
    the document, provided the root does; and its row is the one that
    [NestedEditor] computes from that field. *)
Theorem rendered_editors_read_fields (fuel : nat) (doc : FirestoreMap)
  (props : NestedEditorProps) (r n : Rendered) :
  render fuel doc props = Some r -> n ∈ nodes r ->
  path props `prefix_of` path (renderedProps n)
  /\ (is_Some (useFieldState doc (path props)) ->
      is_Some (useFieldState doc (path (renderedProps n))))
  /\ renderedRow n = row (NestedEditor doc (renderedProps n)).
Proof.
  intros Hr Hn.
  pose (Q := fun c : NestedEditorProps =>
               path props `prefix_of` path c
               /\ (is_Some (useFieldState doc (path props)) ->
                   is_Some (useFieldState doc (path c)))).
  destruct (render_nodes_invariant doc Q) with (fuel := fuel) (props := props)
    (r := r) (n := n) as [[Hpre Hsome] Hrow]; [|done|by split|done|done].
  intros p c cs [Hpre Hsome] Ecs Hc. split.
  - destruct (child_element_shape doc p c cs Ecs Hc) as (k & -> & _).
    by apply prefix_app_r.
  - intros _.
    destruct (child_reads_subtree doc p c cs Ecs Hc) as (? & child & _ & -> & _).
    by eexists.
Qed.

(** X3.  The [isRtdb] flag is not handed down: every editor below the
    root of a rendered tree has no [isRtdb] prop, and its type selector
    offers the nine Firestore field types, also when the root's selector
    offers the five RTDB types. *)
Theorem nested_editors_offer_firestore_types (fuel : nat) (doc : FirestoreMap)
  (props : NestedEditorProps) (r n : Rendered) :
  render fuel doc props = Some r -> n ∈ descendants r ->
  isRtdb (renderedProps n) = None
  /\ selectOptions (renderedRow n)
     = [[STRING; NUMBER; BOOLEAN; MAP; ARRAY; NULL; TIMESTAMP; GEOPOINT;
         REFERENCE]].
Proof.
  intros Hr Hn.
  destruct (descendant_is_child doc fuel props r n Hr Hn)
    as (parent & cs & _ & Ecs & Hc & Hrow).
  destruct (child_element_shape doc parent _ cs Ecs Hc) as (k & _ & Hrtdb & _).
  split; [done|]. rewrite Hrow. cbn [row NestedEditor NestedEditorBody].
  by rewrite selectOptions_renderRow, Hrtdb.
Qed.

(** X4.  The key of an editor below the root can be edited exactly when
    its parent field is a map.  Under a map the key field is enabled and
    dispatches [updateKey] for the editor's path on blur; under an array it
    is read-only and disabled, has no handlers, and shows the decimal index
    of the element. *)
Theorem key_is_mutable_under_a_map (fuel : nat) (doc : FirestoreMap)
  (props : NestedEditorProps) (r n : Rendered) :
  render fuel doc props = Some r -> n ∈ descendants r ->
  exists (parentPath : list string) (k : string) (field : TextFieldProps),
    path (renderedProps n) = parentPath ++ [k]
    /\ keyFields (renderedRow n) = [field]
    /\ keyValue field = lastFieldName (path (renderedProps n))
    /\ match useFieldState doc parentPath with
       | Some (FMap fields) =>
           k ∈ Object_keys fields
           /\ readOnly field = false /\ disabled field = false
           /\ keyOnBlur field
              = Some (updateKey (parentPath ++ [k]) (keyValue field))
       | Some (FArray elems) =>
           (exists i, k = toString i /\ i < length elems)
           /\ readOnly field = true /\ disabled field = true
           /\ keyOnBlur field = None /\ keyOnChange field = None
       | _ => False
       end.
Proof.
  intros Hr Hn.
  destruct (descendant_is_child doc fuel props r n Hr Hn)
    as (parent & cs & _ & Ecs & Hc & Hrow).
  destruct (child_element_shape doc parent _ cs Ecs Hc) as (k & Hpath & _ & Hk).
  exists (path parent), k,
    (keyField (renderedProps n) (lastFieldName (path (renderedProps n)))).
  split_and!; [done| |by unfold keyField; destruct (isKeyMutable _)|].
  - rewrite Hrow. cbn [row NestedEditor NestedEditorBody].
    apply keyFields_renderRow.
  - unfold keyField.
    destruct (useFieldState doc (path parent)) as [[]|]; try done.
    + destruct Hk as [-> Hin]. rewrite <- Hpath. done.
    + destruct Hk as [-> Hin]. done.
Qed.

(** X5.  When no map of the field lists a key twice, the tree rendered
    for an element has exactly one editor for each value of the field it
    reads: the field itself, every entry and element in it, and so on
    down. *)
Theorem one_editor_per_value (fuel : nat) (doc : FirestoreMap)
  (props : NestedEditorProps) (r : Rendered) (v : FirestoreAny) :
  render fuel doc props = Some r ->
  useFieldState doc (path props) = Some v ->
  distinctKeys v ->
  length (nodes r) = size v.
Proof. apply nodes_count. Qed.

(** X8.  A mutable key field shows the local key, and typing is local: the
    change handler gives the typed text as the next local key without
    dispatching, the row rendered with it shows the typed text, and the next
    blur dispatches [updateKey] with the editor's path and the typed text. *)
Theorem key_edit_round_trip (props : NestedEditorProps) (state : FieldState)
  (key typed : string) :
  isKeyMutable props = true ->
  exists (field : TextFieldProps) (onChange : string -> string),
    keyFields (row (NestedEditorBody props state key)) = [field]
    /\ keyValue field = key
    /\ keyOnBlur field = Some (updateKey (path props) key)
    /\ keyOnChange field = Some onChange
    /\ exists field' : TextFieldProps,
         keyFields (row (NestedEditorBody props state (onChange typed)))
         = [field']
         /\ keyValue field' = typed
         /\ keyOnBlur field' = Some (updateKey (path props) typed).
Proof.
  intros Hmutable. cbn [row NestedEditorBody].
  exists (keyField props key), handleKeyChange.
  rewrite keyFields_renderRow. unfold keyField. rewrite Hmutable.
  split_and!; [done..|].
  exists (keyField props typed). unfold handleKeyChange.
  rewrite keyFields_renderRow. unfold keyField. by rewrite Hmutable.
Qed.

End EditorTheorems.

Section DocumentRoot.
Import DocumentEditor Inspect.
Context `{Helpers}.

(** The pieces of a rendered document: the add buttons, and for each key of
    the document the rendering of its element with its buttons. *)
Lemma renderDocument_Some (fuel : nat) (doc : FirestoreMap)
  (keysMutable fieldsMutable rtdb : option bool)
  (fields : list (Rendered * list Widget)) (adds : list Widget) :
  renderDocument fuel doc keysMutable fieldsMutable rtdb = Some (fields, adds) ->
  adds = when (default true fieldsMutable)
           (IconButton "add" "Add field"
              (addField [emptyString] (FString emptyString)))
  /\ Forall2
       (fun field f =>
          render fuel doc
            {| path := [field]; isKeyMutable := default true keysMutable;
               isRtdb := rtdb |} = Some f.1
          /\ f.2 = when (default true fieldsMutable)
                     (IconButton "delete" "Remove field" (deleteField [field])))
       (Object_keys doc) fields.
Proof.
  unfold renderDocument.
  destruct (mapM _ _) as [fs|] eqn:E; [|done]. intros [= <- <-].
  split; [done|]. apply mapM_Some in E.
  cbn [rootFields DocumentEditor RootField] in E.
  apply Forall2_fmap_l in E. eapply Forall2_impl; [exact E|].
  intros field [r buttons]. cbn.
  destruct (render fuel doc _) as [r'|]; [|done]. by intros [= -> ->].
Qed.

End DocumentRoot.

Section DocumentTheorems.
Import DocumentEditor Inspect.
Context `{Helpers}.

(** X6.  When [areRootFieldsMutable] is false, the rendered document has
    no button beside its root editors and no root add button, and no handler
    of any editor in it adds or removes a top-level field: every [addField]
    and [deleteField] it can dispatch has a path of at least two segments. *)
Theorem immutable_root_fields_stay (fuel : nat) (doc : FirestoreMap)
  (keysMutable rtdb : option bool) (fields : list (Rendered * list Widget))
  (adds : list Widget) :
  renderDocument fuel doc keysMutable (Some false) rtdb = Some (fields, adds) ->
  adds = []
  /\ forall f : Rendered * list Widget,
       f ∈ fields ->
       f.2 = []
       /\ forall (n : Rendered) (value : FirestoreAny) (type : FieldType)
                 (a : Action),
            n ∈ nodes f.1 ->
            a ∈ rowActions value type (renderedRow n) ->
            match a with
            | addField p _ | deleteField p => 2 <= length p
            | _ => True
            end.
Proof.
  intros (-> & Hall)%renderDocument_Some. split; [done|].
  intros f (i & Hi)%list_elem_of_lookup.
  destruct (Forall2_lookup_r _ _ _ _ _ Hall Hi) as (field & _ & Hr & Hb).
  split; [done|]. intros n value type a Hn Ha.
  destruct (render_nodes_invariant doc (fun c => 1 <= length (path c)))
    with (fuel := fuel) (r := f.1) (n := n)
         (props := {| path := [field]; isKeyMutable := default true keysMutable;
                      isRtdb := rtdb |})
    as [Hlen Hrow]; [|done|simpl; lia|done|].
  { intros p c cs _ Ecs Hc.
    destruct (child_element_shape doc p c cs Ecs Hc) as (k & -> & _).
    rewrite length_app. simpl. lia. }
  rewrite Hrow in Ha. apply renderRow_actions in Ha.
  destruct a as [p v|p v|p|p k|p t]; [|done| |done|done].
  - destruct Ha as (_ & [[_ ->]|[_ ->]]); rewrite length_app; simpl; lia.
  - destruct Ha as (_ & Hlt & _). lia.
Qed.

(** X7.  A rendered document has one root editor for each key of the
    document, in [Object.keys] order, at the one-segment path of the key,
    with the key mutability and the [rtdb] flag of the document editor (the
    mutability props default to true).  Each root editor reads an existing
    field, and, when root fields are mutable, is followed by one button that
    removes exactly that field. *)
Theorem document_has_one_editor_per_key (fuel : nat) (doc : FirestoreMap)
  (keysMutable fieldsMutable rtdb : option bool)
  (fields : list (Rendered * list Widget)) (adds : list Widget) :
  renderDocument fuel doc keysMutable fieldsMutable rtdb = Some (fields, adds) ->
  fmap (M:=list) (fun f => (renderedProps f.1, f.2)) fields
  = fmap (M:=list)
      (fun field =>
         ({| path := [field]; isKeyMutable := default true keysMutable;
             isRtdb := rtdb |},
          when (default true fieldsMutable)
            (IconButton "delete" "Remove field" (deleteField [field]))))
      (Object_keys doc)
  /\ forall f : Rendered * list Widget,
       f ∈ fields ->
       is_Some (useFieldState doc (path (renderedProps f.1))).
Proof.
  intros (_ & Hall)%renderDocument_Some. split.
  - induction Hall as [|field f keys fs [Hr Hb] _ IH]; [done|].
    rewrite !fmap_cons, IH. f_equal.
    by rewrite (render_props _ _ _ _ Hr), Hb.
  - intros f (i & Hi)%list_elem_of_lookup.
    destruct (Forall2_lookup_r _ _ _ _ _ Hall Hi) as (field & Hfield & Hr & _).
    rewrite (render_props _ _ _ _ Hr). cbn [path].
    destruct (mapGet_key doc field) as (c & Ec & _).
    { by eapply list_elem_of_lookup_2. }
    exists c. unfold useFieldState. simpl. by rewrite Ec.
Qed.

End DocumentTheorems.

(** * Further properties of the evaluation details view *)

Section ViewTheorems.
Import Rules Inspect.
Context `{Externals}.

Lemma header_depends_on_selection (props props' : Props)
  (params params' : RouteParams) :
  selectedEvaluation props.1 = selectedEvaluation props'.1 ->
  header (EvaluationDetails props params)
  = header (EvaluationDetails props' params').
Proof.
  unfold EvaluationDetails. intros ->.
  by destruct (useEvaluationCleanMainData _) as [[[[? ?] ?] ?] ?].
Qed.

(** X9.  For a selected evaluation with a list of granular outcomes, the
    [linesOutcome] prop is the empty list exactly when that list is empty
    (an empty list is not turned into [undefined]), and it depends on the
    outcomes only through their [line] and [outcome]: evaluations whose
    lists agree on these two fields, position by position, give the same
    prop, whatever else they hold. *)
Theorem linesOutcome_keeps_line_and_outcome_only (props : Props)
  (params : RouteParams) (evaluation : FirestoreRulesEvaluation)
  (outcomes : list GranularAllowOutcome) :
  selectedEvaluation props.1 = Some evaluation ->
  granularAllowOutcomes evaluation = Some outcomes ->
  (linesOutcome (code (EvaluationDetails props params)) = Some []
   <-> outcomes = [])
  /\ forall (props' : Props) (params' : RouteParams)
            (evaluation' : FirestoreRulesEvaluation)
            (outcomes' : list GranularAllowOutcome),
       selectedEvaluation props'.1 = Some evaluation' ->
       granularAllowOutcomes evaluation' = Some outcomes' ->
       Forall2 (fun g g' => granularLine g = granularLine g'
                            /\ granularOutcome g = granularOutcome g')
               outcomes outcomes' ->
       linesOutcome (code (EvaluationDetails props params))
       = linesOutcome (code (EvaluationDetails props' params')).
Proof.
  intros Hsel Hout. rewrite code_EvaluationDetails. cbn [linesOutcome].
  rewrite Hsel, (computeLinesOutcome_lookup _ _ Hout). split.
  - split; [|by intros ->]. intros [= E]. by destruct outcomes.
  - intros props' params' evaluation' outcomes' Hsel' Hout' Hagree.
    rewrite code_EvaluationDetails. cbn [linesOutcome].
    rewrite Hsel', (computeLinesOutcome_lookup _ _ Hout'). f_equal.
    clear Hout Hout'. induction Hagree as [|g g' gs gs' [El Eo] _ IH]; [done|].
    simpl. by rewrite El, Eo, IH.
Qed.

(** X10.  What the connected view shows depends on the store only through
    the selected evaluation, and not on the route: two store states with
    the same selected evaluation give the same header and the same code
    props, under any two routes.  What its effect does depends on the route
    only: under one route the effect is the same for any two store
    states. *)
Theorem view_shows_the_store_selection (state state' : AppState)
  (params params' : RouteParams) :
  (getSelectedRequestEvaluation state = getSelectedRequestEvaluation state' ->
   header (ConnectedEvaluationDetails state params)
   = header (ConnectedEvaluationDetails state' params')
   /\ code (ConnectedEvaluationDetails state params)
      = code (ConnectedEvaluationDetails state' params'))
  /\ effect (ConnectedEvaluationDetails state params)
     = effect (ConnectedEvaluationDetails state' params).
Proof.
  unfold ConnectedEvaluationDetails. split.
  - intros Hsel. split.
    + apply header_depends_on_selection.
      by rewrite !connected_selectedEvaluation.
    + by rewrite !code_EvaluationDetails, !connected_selectedEvaluation, Hsel.
  - by rewrite !effect_EvaluationDetails.
Qed.

End ViewTheorems.

(** ** The further properties on the sample document and store *)

Section EditorExamples.
Import DocumentEditor Inspect.
#[local] Existing Instance tagHelpers.

Lemma row_actions_are_local_witness :
  let action := addField ["tags"; "1"] (FString emptyString) in
  action ∈ rowActions FNull STRING
             (row (NestedEditorBody sampleTags (Some (FArray [FNull])) "tags"))
  /\ (isArray (Some (FArray [FNull])) = true
      /\ actionPath action = path sampleTags ++ [toString 1]).
Proof.
  intros action.
  assert (action ∈ rowActions FNull STRING
            (row (NestedEditorBody sampleTags (Some (FArray [FNull])) "tags")))
    as Hin by (vm_compute; repeat constructor).
  split; [exact Hin|].
  destruct (row_actions_are_local _ _ _ _ _ _ Hin) as (_ & [[Hmap _]|Harray]).
  - discriminate Hmap.
  - exact Harray.
Defined.

Lemma rendered_editors_read_fields_witness :
  render 3 sampleDocument sampleTags = Some sampleRendered
  /\ sampleDeepest ∈ nodes sampleRendered
  /\ path (renderedProps sampleDeepest) = ["tags"; "2"; "deep"]
  /\ is_Some (useFieldState sampleDocument ["tags"; "2"; "deep"]).
Proof.
  assert (sampleDeepest ∈ nodes sampleRendered) as Hin
      by (vm_compute; repeat constructor).
  split_and!; [reflexivity|exact Hin|reflexivity|].
  destruct (rendered_editors_read_fields 3 sampleDocument sampleTags
              sampleRendered sampleDeepest eq_refl Hin) as (_ & Hsome & _).
  apply Hsome. by eexists.
Defined.

Lemma nested_editors_offer_firestore_types_witness :
  sampleDeepest ∈ descendants sampleRendered
  /\ selectOptions (renderedRow sampleRendered)
     = [[STRING; NUMBER; BOOLEAN; MAP; ARRAY]]
  /\ selectOptions (renderedRow sampleDeepest)
     = [[STRING; NUMBER; BOOLEAN; MAP; ARRAY; NULL; TIMESTAMP; GEOPOINT;
         REFERENCE]].
Proof.
  assert (sampleDeepest ∈ descendants sampleRendered) as Hin
      by (vm_compute; repeat constructor).
  split_and!; [exact Hin|reflexivity|].
  exact (proj2 (nested_editors_offer_firestore_types 3 sampleDocument
                  sampleTags sampleRendered sampleDeepest eq_refl Hin)).
Defined.

Lemma key_is_mutable_under_a_map_witness :
  sampleDeepest ∈ descendants sampleRendered
  /\ exists (parentPath : list string) (k : string) (field : TextFieldProps),
       path (renderedProps sampleDeepest) = parentPath ++ [k]
       /\ keyFields (renderedRow sampleDeepest) = [field]
       /\ keyValue field = "deep".
Proof.
  assert (sampleDeepest ∈ descendants sampleRendered) as Hin
      by (vm_compute; repeat constructor).
  split; [exact Hin|].
  destruct (key_is_mutable_under_a_map 3 sampleDocument sampleTags
              sampleRendered sampleDeepest eq_refl Hin)
    as (parentPath & k & field & Hpath & Hfields & Hvalue & _).
  exists parentPath, k, field. split_and!; [exact Hpath|exact Hfields|].
  exact Hvalue.
Defined.

Lemma one_editor_per_value_witness :
  useFieldState sampleDocument ["tags"]
  = Some (FArray [FString "x"; FNumber 2%float; FMap [("deep", FNull)]])
  /\ distinctKeys (FArray [FString "x"; FNumber 2%float; FMap [("deep", FNull)]])
  /\ length (nodes sampleRendered) = 5.
Proof.
  assert (distinctKeys
            (FArray [FString "x"; FNumber 2%float; FMap [("deep", FNull)]]))
    as Hdistinct.
  { simpl. split_and!; try exact I. apply NoDup_singleton. }
  split_and!; [reflexivity|exact Hdistinct|].
  exact (one_editor_per_value 3 sampleDocument sampleTags sampleRendered _
           eq_refl eq_refl Hdistinct).
Defined.

Lemma key_edit_round_trip_witness :
  isKeyMutable sampleTags = true
  /\ exists field : TextFieldProps,
       keyFields (row (NestedEditorBody sampleTags (Some FNull) "tags")) = [field]
       /\ keyOnBlur field = Some (updateKey ["tags"] "tags").
Proof.
  split; [reflexivity|].
  destruct (key_edit_round_trip sampleTags (Some FNull) "tags" "labels" eq_refl)
    as (field & onChange & Hfields & _ & Hblur & _).
  exists field. split; [exact Hfields|exact Hblur].
Defined.

Lemma immutable_root_fields_stay_witness :
  renderDocument 3 sampleDocument None (Some false) (Some true)
  = Some sampleRenderedDocument
  /\ length sampleRenderedDocument.1 = 3
  /\ sampleRenderedDocument.2 = [].
Proof.
  split_and!; [reflexivity..|].
  exact (proj1 (immutable_root_fields_stay 3 sampleDocument None (Some true)
                  sampleRenderedDocument.1 sampleRenderedDocument.2 eq_refl)).
Defined.

Lemma document_has_one_editor_per_key_witness :
  renderDocument 3 sampleDocument None (Some false) (Some true)
  = Some sampleRenderedDocument
  /\ fmap (M:=list) (fun f => path (renderedProps f.1)) sampleRenderedDocument.1
     = [["name"]; ["tags"]; ["none"]].
Proof.
  split; [reflexivity|].
  pose proof (proj1 (document_has_one_editor_per_key 3 sampleDocument None
                       (Some false) (Some true) sampleRenderedDocument.1
                       sampleRenderedDocument.2 eq_refl)) as Hfields.
  apply (f_equal (fmap (M:=list) (fun p => path p.1))) in Hfields.
  rewrite <- !list_fmap_compose in Hfields. exact Hfields.
Defined.

End EditorExamples.

Section ViewExamples.
Import Rules Inspect.
#[local] Existing Instance sampleExternals.

Lemma linesOutcome_keeps_line_and_outcome_only_witness :
  let params := {| evaluationId := "e1" |} in
  let props' : Props :=
    ({| selectedEvaluation := Some sampleLookalike |},
     mapDispatchToProps dispatch) in
  selectedEvaluation (connectedProps sampleState).1
  <> selectedEvaluation props'.1
  /\ linesOutcome (code (EvaluationDetails (connectedProps sampleState) params))
     = linesOutcome (code (EvaluationDetails props' params)).
Proof.
  intros params props'. split; [discriminate|].
  eapply (proj2 (linesOutcome_keeps_line_and_outcome_only
                   (H:=sampleExternals)
                   (connectedProps (H:=sampleExternals) sampleState) params
                   _ _ eq_refl eq_refl)
            props' params sampleLookalike _ eq_refl eq_refl).
  repeat constructor.
Defined.

Lemma view_shows_the_store_selection_witness :
  sampleState <> sampleStateGrown
  /\ getSelectedRequestEvaluation sampleState
     = getSelectedRequestEvaluation sampleStateGrown
  /\ code (ConnectedEvaluationDetails sampleState {| evaluationId := "e1" |})
     = code (ConnectedEvaluationDetails sampleStateGrown
               {| evaluationId := "e2" |}).
Proof.
  split_and!; [discriminate|reflexivity|].
  exact (proj2 (proj1 (view_shows_the_store_selection (H:=sampleExternals)
                         sampleState
                         sampleStateGrown {| evaluationId := "e1" |}
                         {| evaluationId := "e2" |}) eq_refl)).
Defined.

End ViewExamples.

(** ** Remove buttons *)

Section RemoveButtons.
Import DocumentEditor Inspect.
Context `{Helpers}.

Lemma clicks_delete_renderRow (props : NestedEditorProps) (state : FieldState)
  (key : string) :
  clicks "delete" (renderRow props state key) =
    when (bool_decide (1 < length (path props)) && isPrimitive state)
      (deleteField (path props)).
Proof.
  unfold renderRow, clicks.
  destruct state as [[]|]; simpl;
    destruct (bool_decide (1 < length (path props))); reflexivity.
Qed.

(** X12.  In the tree rendered for a root field (a path of one segment),
    the row of the root has no remove button, whatever the field; the row
    of an editor below the root has a remove button exactly when its field
    is a primitive, and the button removes that field.  A nested map or
    array has no remove button of its own. *)
Theorem remove_buttons_are_for_nested_primitives (fuel : nat)
  (doc : FirestoreMap) (props : NestedEditorProps) (r : Rendered) :
  render fuel doc props = Some r -> length (path props) = 1 ->
  clicks "delete" (renderedRow r) = []
  /\ forall n : Rendered,
       n ∈ descendants r ->
       clicks "delete" (renderedRow n) =
         when (isPrimitive (useFieldState doc (path (renderedProps n))))
           (deleteField (path (renderedProps n))).
Proof.
  intros Hr Hlen. split.
  - destruct (render_Some _ _ _ _ Hr) as (_ & _ & _ & -> & _).
    cbn [row NestedEditor NestedEditorBody].
    rewrite clicks_delete_renderRow, Hlen. done.
  - intros n Hn.
    destruct (descendant_is_child doc fuel props r n Hr Hn)
      as (parent & cs & Hpre & Ecs & Hc & ->).
    destruct (child_element_shape doc parent _ cs Ecs Hc) as (k & Hpath & _).
    cbn [row NestedEditor NestedEditorBody].
    rewrite clicks_delete_renderRow, bool_decide_true; [done|].
    rewrite Hpath, length_app. apply prefix_length in Hpre. simpl. lia.
Qed.

End RemoveButtons.

Section RemoveButtonExamples.
Import DocumentEditor Inspect.
#[local] Existing Instance tagHelpers.

Lemma remove_buttons_are_for_nested_primitives_witness :
  render 3 sampleDocument sampleTags = Some sampleRendered
  /\ length (path sampleTags) = 1
  /\ clicks "delete" (renderedRow sampleRendered) = []
  /\ clicks "delete" (renderedRow sampleDeepest)
     = [deleteField ["tags"; "2"; "deep"]].
Proof.
  assert (sampleDeepest ∈ descendants sampleRendered) as Hin
      by (vm_compute; repeat constructor).
  destruct (remove_buttons_are_for_nested_primitives 3 sampleDocument
              sampleTags sampleRendered eq_refl eq_refl) as [Hroot Hbelow].
  split_and!; [reflexivity|reflexivity|exact Hroot|].
  exact (Hbelow sampleDeepest Hin).
Defined.

End RemoveButtonExamples.

(** * The effect of the view under React's dependency rule *)

Section EffectProperties.
Import Rules Hooks.
Context `{Externals} `{!ObjectIs}.



(** What one render of a mounted view does to the world. *)
Lemma renderInstance_world (previous : option EffectDeps) (w : World)
  (params : RouteParams) :
  let view := ConnectedEvaluationDetails (appState w) params in
  let fetch := getRequestEvaluationById (Some (evaluationId params)) in
  (renderInstance previous w params).2 =
    if effectDue previous (effectDeps view)
    then {| appState := reducer (appState w) fetch;
            dispatched := dispatched w ++ [fetch] |}
    else w.
Proof.
  cbn zeta. unfold renderInstance. cbn [snd].
  destruct (effectDue previous _); [|done]. by rewrite connected_effect.
Qed.

End EffectProperties.

Section EffectTheorems.
Import Rules Hooks.
Context `{Externals} `{!ObjectIs}.


(** X11.  When one mounted instance of the connected view is rendered
    for a sequence of route ids, with no other update of the store in
    between, the actions it dispatches are [getRequestEvaluationById]
    fetches of a subsequence of these ids, in the order of the renders and
    after those dispatched before: at most one for each render and nothing
    else.  The store is the one the reducer reaches through these fetches,
    and a fresh instance fetches for its first render. *)
Theorem renders_fetch_a_subsequence (previous : option EffectDeps) (w : World)
  (ids : list string) :
  exists ran : list string,
    ran `sublist_of` ids
    /\ dispatched (renderSequence previous w ids).2
       = dispatched w
         ++ fmap (M:=list) (fun id => getRequestEvaluationById (Some id)) ran
    /\ appState (renderSequence previous w ids).2
       = foldl reducer (appState w)
           (fmap (M:=list) (fun id => getRequestEvaluationById (Some id)) ran)
    /\ (previous = None -> head ran = head ids).
Proof.
  unfold renderSequence. revert previous w.
  induction ids as [|id ids IH]; intros previous w.
  - exists []. cbn. by rewrite app_nil_r.
  - cbn [foldl fst snd].
    destruct (IH (renderInstance previous w {| evaluationId := id |}).1
                 (renderInstance previous w {| evaluationId := id |}).2)
      as (ran & Hsub & Hlog & Hstore & _).
    rewrite <- surjective_pairing in Hlog, Hstore.
    rewrite Hlog, Hstore, renderInstance_world.
    cbn [evaluationId].
    destruct (effectDue previous _) eqn:Edue.
    + exists (id :: ran). cbn [dispatched appState]. split_and!.
      * by apply sublist_skip.
      * by rewrite <- app_assoc.
      * done.
      * done.
    + exists ran. split_and!; [by apply sublist_cons|done..|].
      intros ->. discriminate Edue.
Qed.

End EffectTheorems.

Section EffectExamples.
Import Rules Hooks.
#[local] Existing Instance sampleExternals.
#[local] Existing Instance sampleObjectIs.



Lemma renders_fetch_a_subsequence_witness :
  dispatched (renderSequence None sampleWorld ["e1"; "e1"; "e2"]).2
  = [getRequestEvaluationById (Some "e1"); getRequestEvaluationById (Some "e2")]
  /\ exists ran : list string,
       ran `sublist_of` ["e1"; "e1"; "e2"]
       /\ dispatched (renderSequence None sampleWorld ["e1"; "e1"; "e2"]).2
          = fmap (M:=list) (fun id => getRequestEvaluationById (Some id)) ran
       /\ head ran = Some "e1".
Proof.
  split; [reflexivity|].
  destruct (renders_fetch_a_subsequence (H:=sampleExternals) None sampleWorld
              ["e1"; "e1"; "e2"]) as (ran & Hsub & Hlog & _ & Hhead).
  exists ran. split_and!; [exact Hsub|exact Hlog|exact (Hhead eq_refl)].
Defined.

End EffectExamples.
